(** * The reconciliation core of [main.py]

    A shallow embedding of the secret synchroniser: the key normalizer
    [normalize_secret_key], the source adapter [fetch_gcp_secret], the sink
    adapter [update_k8s_secret], one cycle [sync_secrets] and the scheduler
    loop [periodic_sync].

    Python values are modelled as the code sees them: a [str] is a sequence
    of Unicode code points, a [dict] an association list in insertion order,
    an exception a value of the type [exn] carried by the [Raise] outcome.
    Log lines are left out: no function of the core reads them back. *)

From stdpp Require Import base option list gmap strings.
From Stdlib Require Import NArith ZArith Ascii String DecimalString.

Local Open Scope N_scope.

(** ** Python strings *)

(** A Python [str]: its code points, in order. *)
Abbreviation pystr := (list N).

(** The [str] spelled by an ASCII literal. *)
Definition py (s : string) : pystr :=
  map N_of_ascii (list_ascii_of_string s).

(** ** Key normalizer (main.py, normalize_secret_key) *)

Module Normalizer.

Definition underscore : N := 95.
Definition dot : N := 46.
Definition hyphen : N := 45.

(** The character class [[a-zA-Z0-9._-]] of the first [re.sub]. *)
Definition is_valid_char (c : N) : bool :=
  ((97 <=? c) && (c <=? 122))
  || ((65 <=? c) && (c <=? 90))
  || ((48 <=? c) && (c <=? 57))
  || (c =? dot) || (c =? underscore) || (c =? hyphen).

(** [s.encode('ascii', 'ignore').decode('ascii')]: code points that are
    not ASCII are dropped. *)
Definition encode_ascii_ignore (s : pystr) : pystr :=
  filter (λ c, c < 128) s.

(** [re.sub(r'[^a-zA-Z0-9._-]', '_', s)]. *)
Definition replace_invalid (s : pystr) : pystr :=
  map (λ c, if is_valid_char c then c else underscore) s.

(** [re.sub(r'_+', '_', s)]: every maximal run of underscores becomes one
    underscore. An underscore followed by another one is dropped, so the
    last of each run is the one that stays. *)
Fixpoint collapse_underscores (s : pystr) : pystr :=
  match s with
  | [] => []
  | c :: s' =>
      match s' with
      | d :: _ =>
          if (c =? underscore) && (d =? underscore)
          then collapse_underscores s'
          else c :: collapse_underscores s'
      | [] => [c]
      end
  end.

(** Membership in the argument of [strip('_.')]. *)
Definition is_stripped (c : N) : bool := (c =? underscore) || (c =? dot).

Fixpoint lstrip (s : pystr) : pystr :=
  match s with
  | [] => []
  | c :: s' => if is_stripped c then lstrip s' else s
  end.

Definition rstrip (s : pystr) : pystr := reverse (lstrip (reverse s)).

(** [s.strip('_.')]. *)
Definition strip (s : pystr) : pystr := rstrip (lstrip s).

Definition INVALID_KEY : pystr := py "INVALID_KEY".

Section WithUnicodeData.

(** [unicodedata.normalize('NFKD', _)], a function of the Python
    library: total on [str]. *)
Variable normalize_NFKD : pystr → pystr.

Definition normalize_secret_key (key : pystr) : pystr :=
  let normalized := normalize_NFKD key in
  let ascii_key := encode_ascii_ignore normalized in
  let valid_key := replace_invalid ascii_key in
  let valid_key := collapse_underscores valid_key in
  let valid_key := strip valid_key in
  match valid_key with
  | [] => INVALID_KEY
  | _ :: _ => valid_key
  end.

(** The key just before the emptiness test. *)
Definition trimmed (key : pystr) : pystr :=
  strip (collapse_underscores
           (replace_invalid (encode_ascii_ignore (normalize_NFKD key)))).

End WithUnicodeData.

(** The destination identifier grammar [^[A-Za-z0-9._-]+$]: one character
    at least, every character in the class. *)
Definition matches_grammar (s : pystr) : bool :=
  match s with
  | [] => false
  | _ :: _ => forallb is_valid_char s
  end.

(** Every character is in the class; every character is ASCII. *)
Definition valid (s : pystr) : Prop :=
  Forall (λ c, is_valid_char c = true) s.

Definition ascii (s : pystr) : Prop := Forall (λ c, c < 128) s.

(** No two underscores side by side. *)
Fixpoint no_run (s : pystr) : Prop :=
  match s with
  | [] => True
  | c :: s' => (c = underscore → head s' ≠ Some underscore) ∧ no_run s'
  end.

(** A fragment of the Unicode decomposition data: the compatibility
    decompositions of the Turkish letters and of a few accented Latin
    letters, as [unicodedata.decomposition] lists them. A code point
    outside the table (every ASCII one is) is its own decomposition. *)
Definition decomposition (c : N) : pystr :=
  match c with
  | 0x130 => [0x49; 0x307]   (* İ *)
  | 0xC7 => [0x43; 0x327]    (* Ç *)
  | 0xE7 => [0x63; 0x327]    (* ç *)
  | 0x11E => [0x47; 0x306]   (* Ğ *)
  | 0x11F => [0x67; 0x306]   (* ğ *)
  | 0xD6 => [0x4F; 0x308]    (* Ö *)
  | 0xF6 => [0x6F; 0x308]    (* ö *)
  | 0x15E => [0x53; 0x327]   (* Ş *)
  | 0x15F => [0x73; 0x327]   (* ş *)
  | 0xDC => [0x55; 0x308]    (* Ü *)
  | 0xFC => [0x75; 0x308]    (* ü *)
  | 0xE9 => [0x65; 0x301]    (* é *)
  | _ => [c]
  end.

(** NFKD restricted to that fragment. *)
Definition nfkd_fragment (s : pystr) : pystr :=
  flat_map decomposition s.

End Normalizer.

(** ** Python values and exceptions *)

(** What [json.loads] can return. A [float] is carried by its [repr], the
    only thing the core asks of it; a [dict] keeps its items in insertion
    order. *)
#[warnings="-register-all"]
Inductive pyval : Type :=
  | PyNone
  | PyBool (b : bool)
  | PyInt (n : Z)
  | PyFloat (repr : pystr)
  | PyStr (s : pystr)
  | PyList (l : list pyval)
  | PyDict (d : list (pystr * pyval)).

(** Instances of [Exception]: every [except Exception] clause catches them.
    [ApiException] is the Kubernetes client's, with its [status] attribute. *)
Inductive exn : Type :=
  | ApiException (status : option Z)
  | UnicodeDecodeError
  | JSONDecodeError
  | TypeError
  | AttributeError
  | Exception (msg : string).

(** How a call ends: it returns, it raises an [Exception], or the task is
    cancelled inside it ([asyncio.CancelledError], which is not an
    [Exception] and passes through every [except Exception]). *)
Inductive outcome (A : Type) : Type :=
  | Return (a : A)
  | Raise (e : exn)
  | Cancelled.
Arguments Return {A} a.
Arguments Raise {A} e.
Arguments Cancelled {A}.

(** The functions of the Python library the core calls and this file does
    not define. *)
Class PythonLib := {
  (** [unicodedata.normalize('NFKD', _)] *)
  unicodedata_normalize_NFKD : pystr → pystr;
  (** [repr] of a [str] *)
  repr_str : pystr → pystr;
}.

Module Builtins.

(** [str] of an [int]: its decimal digits, with a minus sign below zero. *)
Definition str_int (n : Z) : pystr :=
  py (DecimalString.NilZero.string_of_int (Z.to_int n)).

(** [sep.join(parts)]. *)
Fixpoint join (sep : pystr) (parts : list pystr) : pystr :=
  match parts with
  | [] => []
  | [p] => p
  | p :: ps => p ++ sep ++ join sep ps
  end.

Section WithLib.
Context `{PythonLib}.

(** [repr(v)]. *)
Fixpoint py_repr (v : pyval) : pystr :=
  match v with
  | PyNone => py "None"
  | PyBool true => py "True"
  | PyBool false => py "False"
  | PyInt n => str_int n
  | PyFloat r => r
  | PyStr s => repr_str s
  | PyList l => py "[" ++ join (py ", ") (map py_repr l) ++ py "]"
  | PyDict d =>
      py "{"
      ++ join (py ", ")
           (map (λ kv, repr_str (fst kv) ++ py ": " ++ py_repr (snd kv)) d)
      ++ py "}"
  end.

(** [str(v)]: a [str] is itself, anything else is its [repr]. *)
Definition py_str (v : pyval) : pystr :=
  match v with
  | PyStr s => s
  | _ => py_repr v
  end.

End WithLib.

(** [len(v)]; [None] where Python raises [TypeError]. *)
Definition py_len (v : pyval) : option nat :=
  match v with
  | PyStr s => Some (List.length s)
  | PyList l => Some (List.length l)
  | PyDict d => Some (List.length d)
  | PyNone | PyBool _ | PyInt _ | PyFloat _ => None
  end.

(** [v.items()]; [None] where Python raises [AttributeError]. *)
Definition py_items (v : pyval) : option (list (pystr * pyval)) :=
  match v with
  | PyDict d => Some d
  | _ => None
  end.

End Builtins.

(** ** Configuration and the two stores *)

(** The fields of [Settings] the core reads. *)
Record Settings := {
  gcp_project_id : pystr;
  gcp_secret_name : pystr;
  gcp_secret_version : pystr;
  k8s_namespace : pystr;
  k8s_secret_name : pystr;
  sync_interval_seconds : Z;
}.

(** What the bytes of a secret version are to the two library calls made on
    them: [.decode('UTF-8')] fails, or [json.loads] fails on the text, or
    [json.loads] returns a document. *)
Inductive payload : Type :=
  | NotUtf8
  | NotJson
  | Json (document : pyval).

(** The source client: [access_secret_version] on a resource name returns a
    payload ([inr]) or raises ([inl]). *)
Record SecretManagerServiceClient := {
  access_secret_version : pystr → exn + payload;
}.

Record V1ObjectMeta := {
  name : pystr;
  namespace : pystr;
}.

(** [V1Secret] with the attributes the core sets. The values of [data] are
    kept decoded, as the text their base64 stands for. *)
Record V1Secret := {
  metadata : V1ObjectMeta;
  data : option (gmap pystr pystr);
  string_data : option (gmap pystr pystr);
}.

(** The requests the sink client can send. *)
Inductive api_call : Type :=
  | ReadSecret (name namespace : pystr)
  | PatchSecret (name namespace : pystr) (body : V1Secret)
  | CreateSecret (namespace : pystr) (body : V1Secret).

Inductive api_verb : Type := READ | PATCH | CREATE.

(** The destination behind the sink client [k8s_core_v1]: the secrets it
    holds, by (namespace, name), each with its content; the error, if any,
    with which it answers each kind of request whatever it holds; and the
    requests it has received, latest first. *)
Record CoreV1Api := {
  objects : gmap (pystr * pystr) (gmap pystr pystr);
  fault : api_verb → option exn;
  calls : list api_call;
}.

(** How the destination turns an accepted write into content: the content of
    an object after a partial update with a body, and the content of an
    object created from a body. *)
Class Destination := {
  patched : gmap pystr pystr → V1Secret → gmap pystr pystr;
  created : V1Secret → gmap pystr pystr;
}.

(** The event loop as the scheduler meets it: the sleeps started so far
    (seconds, latest first), whether the task is cancelled during its
    sleep number [i] (counting from 0), and how many cycles were invoked. *)
Record EventLoop := {
  sleeps : list Z;
  cancel_during_sleep : nat → bool;
  cycles : nat;
}.

(** The module globals of main.py and what lies behind them. *)
Record World := {
  settings : Settings;
  secret_client : option SecretManagerServiceClient;
  k8s_core_v1 : option CoreV1Api;
  loop : EventLoop;
}.

(** ** Effects: state passing with exceptions *)

Definition M (A : Type) : Type := World → outcome A * World.

Definition ret {A} (a : A) : M A := λ w, (Return a, w).

Definition raise {A} (e : exn) : M A := λ w, (Raise e, w).

Definition bind {A B} (m : M A) (k : A → M B) : M B :=
  λ w, match m w with
       | (Return a, w') => k a w'
       | (Raise e, w') => (Raise e, w')
       | (Cancelled, w') => (Cancelled, w')
       end.

(** [try: body / except Exception as e: handler e]. *)
Definition try_except {A} (body : M A) (handler : exn → M A) : M A :=
  λ w, match body w with
       | (Raise e, w') => handler e w'
       | r => r
       end.

(** [try: body / except ApiException as e: handler e.status]: any other
    exception goes on. *)
Definition try_except_ApiException {A} (body : M A)
    (handler : option Z → M A) : M A :=
  λ w, match body w with
       | (Raise (ApiException status), w') => handler status w'
       | r => r
       end.

Declare Scope py_scope.
Delimit Scope py_scope with py_m.
Notation "x <- m ;; k" := (bind m (λ x, k))
  (at level 100, m at next level, right associativity) : py_scope.
Notation "m ;; k" := (bind m (λ _, k))
  (at level 100, right associativity) : py_scope.

Local Open Scope py_scope.

(** ** The clients' methods and the event loop's sleep *)

Module Client.
Section WithDestination.
Context `{Destination}.

Definition received (call : api_call) (api : CoreV1Api) : CoreV1Api :=
  {| objects := objects api; fault := fault api;
     calls := call :: calls api |}.

Definition holding (objs : gmap (pystr * pystr) (gmap pystr pystr))
    (api : CoreV1Api) : CoreV1Api :=
  {| objects := objs; fault := fault api; calls := calls api |}.

Definition with_api (w : World) (api : CoreV1Api) : World :=
  {| settings := settings w; secret_client := secret_client w;
     k8s_core_v1 := Some api; loop := loop w |}.

(** One request to the destination: it is recorded, then answered with
    the fault set for its verb, if any, and else by [answer] from the
    objects held. *)
Definition request {A} (verb : api_verb) (call : api_call)
    (answer : CoreV1Api → outcome A * CoreV1Api) : M A :=
  λ w, match k8s_core_v1 w with
       | None => (Raise AttributeError, w)
       | Some api =>
           let api := received call api in
           match fault api verb with
           | Some e => (Raise e, with_api w api)
           | None => let '(r, api) := answer api in (r, with_api w api)
           end
       end.

(** [k8s_core_v1.read_namespaced_secret(name=, namespace=)]: the object
    held, or [ApiException] with status 404. *)
Definition read_namespaced_secret (name namespace : pystr) : M V1Secret :=
  request READ (ReadSecret name namespace)
    (λ api, match objects api !! (namespace, name) with
            | Some content =>
                (Return {| metadata := {| name := name;
                                          namespace := namespace |};
                           data := Some content;
                           string_data := None |}, api)
            | None => (Raise (ApiException (Some 404%Z)), api)
            end).

(** [k8s_core_v1.patch_namespaced_secret(name=, namespace=, body=)]. *)
Definition patch_namespaced_secret (name namespace : pystr)
    (body : V1Secret) : M unit :=
  request PATCH (PatchSecret name namespace body)
    (λ api, match objects api !! (namespace, name) with
            | Some content =>
                (Return (),
                 holding (<[(namespace, name) := patched content body]>
                            (objects api)) api)
            | None => (Raise (ApiException (Some 404%Z)), api)
            end).

(** [k8s_core_v1.create_namespaced_secret(namespace=, body=)]: status
    409 when the name is taken. *)
Definition create_namespaced_secret (namespace : pystr)
    (body : V1Secret) : M unit :=
  request CREATE (CreateSecret namespace body)
    (λ api, let key := (namespace, name (metadata body)) in
            match objects api !! key with
            | Some _ => (Raise (ApiException (Some 409%Z)), api)
            | None =>
                (Return (),
                 holding (<[key := created body]> (objects api)) api)
            end).

End WithDestination.

(** [asyncio.sleep(seconds)]: the one point where the task can be
    cancelled. *)
Definition asyncio_sleep (seconds : Z) : M unit :=
  λ w, let l := loop w in
       let w' := {| settings := settings w;
                    secret_client := secret_client w;
                    k8s_core_v1 := k8s_core_v1 w;
                    loop := {| sleeps := seconds :: sleeps l;
                               cancel_during_sleep := cancel_during_sleep l;
                               cycles := cycles l |} |} in
       (if cancel_during_sleep l (List.length (sleeps l))
        then Cancelled else Return (), w').

(** The start of a cycle, counted. *)
Definition cycle_invoked : M unit :=
  λ w, let l := loop w in
       (Return (),
        {| settings := settings w;
           secret_client := secret_client w;
           k8s_core_v1 := k8s_core_v1 w;
           loop := {| sleeps := sleeps l;
                      cancel_during_sleep := cancel_during_sleep l;
                      cycles := S (cycles l) |} |}).

End Client.

(** ** The core of main.py *)

Section Core.
Context `{PythonLib} `{Destination}.
Import Normalizer Builtins Client.

(** main.py, fetch_gcp_secret. *)
Definition fetch_gcp_secret : M pyval :=
  λ w,
    match secret_client w with
    | None => raise (Exception "GCP client not initialized") w
    | Some client =>
        try_except
          (let secret_path :=
             py "projects/" ++ gcp_project_id (settings w)
             ++ py "/secrets/" ++ gcp_secret_name (settings w)
             ++ py "/versions/" ++ gcp_secret_version (settings w) in
           response <- match access_secret_version client secret_path with
                       | inr response => ret response
                       | inl e => raise e
                       end ;;
           match response with
           | NotUtf8 => raise UnicodeDecodeError
           | NotJson => raise JSONDecodeError
           | Json secrets =>
               match py_len secrets with
               | None => raise TypeError
               | Some _ => ret secrets
               end
           end)
          (λ e, raise e) w
    end.

(** The loop that opens update_k8s_secret: keys normalized, values
    stringified, a later item overwriting an earlier one under the same
    normalized key. *)
Definition build_string_data (items : list (pystr * pyval))
    : gmap pystr pystr :=
  foldl (λ string_data item,
           let original_key := item.1 in
           let value := item.2 in
           let normalized_key :=
             normalize_secret_key unicodedata_normalize_NFKD original_key in
           <[normalized_key := py_str value]> string_data)
        ∅ items.

(** main.py, update_k8s_secret. *)
Definition update_k8s_secret (secrets : pyval) : M bool :=
  λ w,
    match k8s_core_v1 w with
    | None => raise (Exception "Kubernetes client not initialized") w
    | Some _ =>
        try_except
          (items <- match py_items secrets with
                    | Some items => ret items
                    | None => raise AttributeError
                    end ;;
           let string_data := build_string_data items in
           let name := k8s_secret_name (settings w) in
           let namespace := k8s_namespace (settings w) in
           try_except_ApiException
             (existing_secret <- read_namespaced_secret name namespace ;;
              let existing_secret :=
                {| metadata := metadata existing_secret;
                   data := None;
                   string_data := Some string_data |} in
              patch_namespaced_secret name namespace existing_secret)
             (λ status,
                if decide (status = Some 404%Z)
                then
                  let secret_body :=
                    {| metadata := {| name := name;
                                      namespace := namespace |};
                       data := None;
                       string_data := Some string_data |} in
                  create_namespaced_secret namespace secret_body
                else raise (ApiException status)) ;;
           ret true)
          (λ e, raise e) w
    end.

(** main.py, sync_secrets. *)
Definition sync_secrets : M bool :=
  try_except
    (secrets <- fetch_gcp_secret ;;
     update_k8s_secret secrets ;;
     ret true)
    (λ _, ret false).

(** One turn of the [while True] of periodic_sync, around a cycle. *)
Definition periodic_sync_turn (cycle : M bool) : M unit :=
  try_except
    (cycle_invoked ;;
     cycle ;;
     λ w, asyncio_sleep (sync_interval_seconds (settings w)) w)
    (λ _, asyncio_sleep 60).

(** main.py, periodic_sync, around a cycle and for [turns] turns of its
    loop at most: it returns when the turns are used up, the loop still
    going. *)
Fixpoint periodic_sync_of (cycle : M bool) (turns : nat) : M unit :=
  match turns with
  | O => ret ()
  | S turns => periodic_sync_turn cycle ;; periodic_sync_of cycle turns
  end.

Definition periodic_sync : nat → M unit := periodic_sync_of sync_secrets.

End Core.

(** The destination as the Kubernetes API serves secrets. A write carries
    the attributes of the body that are set; an attribute left [None] is not
    part of the request. A partial update lays the entries it carries over
    the content held; a create starts from nothing. *)
Definition carried (body : V1Secret) : gmap pystr pystr :=
  default ∅ (string_data body) ∪ default ∅ (data body).

#[export] Instance kubernetes : Destination := {|
  patched content body := carried body ∪ content;
  created body := carried body;
|}.

(** The Python library with the decomposition fragment for NFKD, and
    [repr] of a [str] in single quotes (right when the text needs no
    escape). *)
Definition python_fragment : PythonLib := {|
  unicodedata_normalize_NFKD := Normalizer.nfkd_fragment;
  repr_str s := py "'" ++ s ++ py "'";
|}.

(** ** Vocabulary of the properties *)

Definition verb_of (call : api_call) : api_verb :=
  match call with
  | ReadSecret _ _ => READ
  | PatchSecret _ _ _ => PATCH
  | CreateSecret _ _ => CREATE
  end.

#[export] Instance api_verb_eq_dec : EqDecision api_verb.
Proof. solve_decision. Defined.

(** How many of the calls are requests of a verb. *)
Definition count_calls (verb : api_verb) (l : list api_call) : nat :=
  List.length (filter (λ call, verb_of call = verb) l).

(** The requests the destination has received, latest first. *)
Definition calls_of (w : World) : list api_call :=
  match k8s_core_v1 w with
  | Some api => calls api
  | None => []
  end.

(** The requests received between two worlds, latest first. *)
Definition calls_made (before after : World) : list api_call :=
  take (List.length (calls_of after) - List.length (calls_of before))
       (calls_of after).

(** The body a request writes, if it is a write. *)
Definition written (call : api_call) : option V1Secret :=
  match call with
  | ReadSecret _ _ => None
  | PatchSecret _ _ body | CreateSecret _ body => Some body
  end.

(** The content of the destination object of the configuration. *)
Definition destination_content (w : World) : option (gmap pystr pystr) :=
  api ← k8s_core_v1 w ;
  objects api !! (k8s_namespace (settings w), k8s_secret_name (settings w)).

(** The body of both writes of update_k8s_secret: the name and namespace of
    the configuration, no [data], the normalized bundle as [string_data]. *)
Definition secret_body `{PythonLib} (w : World)
    (items : list (pystr * pyval)) : V1Secret :=
  {| metadata := {| name := k8s_secret_name (settings w);
                    namespace := k8s_namespace (settings w) |};
     data := None;
     string_data := Some (build_string_data items) |}.

(** The not-found signal. *)
Definition not_found : exn := ApiException (Some 404%Z).

(** The resource name fetch_gcp_secret asks for. *)
Definition secret_path (w : World) : pystr :=
  py "projects/" ++ gcp_project_id (settings w)
  ++ py "/secrets/" ++ gcp_secret_name (settings w)
  ++ py "/versions/" ++ gcp_secret_version (settings w).

(** What the source answers to fetch_gcp_secret, if there is a client. *)
Definition source_answer (w : World) : option (exn + payload) :=
  client ← secret_client w ;
  Some (access_secret_version client (secret_path w)).

(** A flat key/value structure: a mapping whose values are scalars. *)
Definition is_scalar (v : pyval) : bool :=
  match v with
  | PyList _ | PyDict _ => false
  | _ => true
  end.

Definition is_flat_mapping (v : pyval) : bool :=
  match v with
  | PyDict d => forallb (λ kv, is_scalar kv.2) d
  | _ => false
  end.

(** What [len] accepts of a parsed document. *)
Definition has_len (v : pyval) : bool :=
  match v with
  | PyStr _ | PyList _ | PyDict _ => true
  | _ => false
  end.

(** A mapping to strings. *)
Definition is_str (v : pyval) : bool :=
  match v with
  | PyStr _ => true
  | _ => false
  end.

Definition maps_to_strings (v : pyval) : bool :=
  match v with
  | PyDict d => forallb (λ kv, is_str kv.2) d
  | _ => false
  end.

(** A stand-in for sync_secrets in the scheduler: any cycle that leaves the
    event loop and the configuration alone and has no point of its own
    where the task can be cancelled. It may fail either way, by returning
    [False] or by raising. *)
Definition reconciler (cycle : M bool) : Prop :=
  ∀ w, (cycle w).1 ≠ Cancelled
       ∧ loop (cycle w).2 = loop w
       ∧ settings (cycle w).2 = settings w.

(** The world once the scheduler has invoked a cycle: the count is up. *)
Definition counted (w : World) : World := (Client.cycle_invoked w).2.

(** The seconds the scheduler sleeps after a cycle invoked in a world: the
    interval when the cycle returned, the back-off when it raised. *)
Definition pause (cycle : M bool) (w : World) : Z :=
  match (cycle (counted w)).1 with
  | Raise _ => 60
  | _ => sync_interval_seconds (settings w)
  end.

(** The world once a sleep of so many seconds has started. *)
Definition slept (seconds : Z) (w : World) : World :=
  (Client.asyncio_sleep seconds w).2.

(** Whether the task is cancelled during the next sleep. *)
Definition cancelled_next (w : World) : bool :=
  cancel_during_sleep (loop w) (List.length (sleeps (loop w))).

(** No cancellation during the next [n] sleeps. *)
Definition undisturbed (w : World) (n : nat) : Prop :=
  ∀ i, (i < n)%nat →
       cancel_during_sleep (loop w) (List.length (sleeps (loop w)) + i) = false.

(** ** Sample configuration and worlds *)

Module Sample.

Definition config : Settings := {|
  gcp_project_id := py "acme";
  gcp_secret_name := py "app-env";
  gcp_secret_version := py "latest";
  k8s_namespace := py "default";
  k8s_secret_name := py "app-env";
  sync_interval_seconds := 300;
|}.

Definition quiet_loop : EventLoop :=
  {| sleeps := []; cancel_during_sleep := λ _, false; cycles := 0 |}.

(** A source that serves one payload. *)
Definition serving (p : payload) : SecretManagerServiceClient :=
  {| access_secret_version := λ _, inr p |}.

(** A destination without faults that holds the objects given. *)
Definition cluster (objs : gmap (pystr * pystr) (gmap pystr pystr))
    : CoreV1Api :=
  {| objects := objs; fault := λ _, None; calls := [] |}.

Definition world (source : option SecretManagerServiceClient)
    (api : CoreV1Api) : World :=
  {| settings := config; secret_client := source;
     k8s_core_v1 := Some api; loop := quiet_loop |}.

(** The destination object holding keys A and B. *)
Definition old_content : gmap pystr pystr :=
  {[ py "A" := py "1"; py "B" := py "2" ]}.

Definition holding_AB : CoreV1Api :=
  cluster {[ (py "default", py "app-env") := old_content ]}.

(** Sources serving an array, and a mapping with a number in it. *)
Definition array_world : World :=
  world (Some (serving (Json (PyList [PyInt 1])))) holding_AB.

Definition port_world : World :=
  world (Some (serving (Json (PyDict [(py "port", PyInt 8080)]))))
        holding_AB.

(** No source client: every cycle fails. *)
Definition failing_world : World := world None holding_AB.

(** The bundle with keys B and C. *)
Definition bundle_BC : pyval :=
  PyDict [(py "B", PyStr (py "3")); (py "C", PyStr (py "4"))].

(** The world after update_k8s_secret has applied that bundle to the
    object holding A and B, on the Kubernetes destination. *)
Definition after_update : World :=
  (@update_k8s_secret python_fragment kubernetes bundle_BC
     (world None holding_AB)).2.

End Sample.

(** ** Text methods of [str] used by the trigger surface *)

Module Text.

(** [c.isspace()] for one character: the white space of the Unicode data. *)
Definition isspace (c : N) : bool :=
  ((0x9 <=? c) && (c <=? 0xD))
  || ((0x1C <=? c) && (c <=? 0x20))
  || (c =? 0x85) || (c =? 0xA0) || (c =? 0x1680)
  || ((0x2000 <=? c) && (c <=? 0x200A))
  || (c =? 0x2028) || (c =? 0x2029) || (c =? 0x202F)
  || (c =? 0x205F) || (c =? 0x3000).

Fixpoint lstrip (s : pystr) : pystr :=
  match s with
  | [] => []
  | c :: s' => if isspace c then lstrip s' else s
  end.

(** [s.strip()]. *)
Definition strip (s : pystr) : pystr :=
  reverse (lstrip (reverse (lstrip s))).

(** [s.startswith(prefix)]. *)
Fixpoint startswith (prefix s : pystr) : bool :=
  match prefix, s with
  | [], _ => true
  | _ :: _, [] => false
  | p :: prefix', c :: s' => (p =? c) && startswith prefix' s'
  end.

(** [s.replace(old, "")] for a non-empty [old], from left to right: at an
    occurrence of [old] its characters are skipped, [skip] counting those
    still to go. *)
Fixpoint remove_from (skip : nat) (old s : pystr) : pystr :=
  match s with
  | [] => []
  | c :: s' =>
      match skip with
      | S skip' => remove_from skip' old s'
      | O =>
          if startswith old s
          then remove_from (List.length old - 1) old s'
          else c :: remove_from O old s'
      end
  end.

Definition remove (old s : pystr) : pystr := remove_from O old s.

(** Whether [old] occurs in [s]: [old in s]. *)
Fixpoint contains (old s : pystr) : bool :=
  startswith old s
  || match s with
     | [] => false
     | _ :: s' => contains old s'
     end.

(** The truth value of an [Optional[str]]: [None] and the empty string are
    false. *)
Definition truthy (o : option pystr) : bool :=
  match o with
  | Some (_ :: _) => true
  | _ => false
  end.

End Text.

(** ** The trigger and status surface (main.py, health_check, manual_sync) *)

(** The fields of [Settings] that only the surface and the start-up read. *)
Record SurfaceSettings := {
  api_token : option pystr;
  gcp_credentials_path : option pystr;
}.

(** One entry of the [checks] of the health report. *)
Record Check := {
  check_status : pystr;
  check_message : pystr;
}.

Record HealthStatus := {
  health : pystr;
  health_timestamp : pystr;
  check_gcp : Check;
  check_kubernetes : Check;
}.

Record JSONResponse := {
  content : HealthStatus;
  status_code : Z;
}.

(** The body manual_sync returns. *)
Record SyncReport := {
  report_status : pystr;
  report_message : pystr;
  report_timestamp : pystr;
}.

(** How a request handler ends: with a body, with an [HTTPException], or
    cancelled. *)
Inductive handled (A : Type) : Type :=
  | Responds (body : A)
  | HTTPException (status_code : Z) (detail : pystr)
  | HandlerCancelled.
Arguments Responds {A} body.
Arguments HTTPException {A} status_code detail.
Arguments HandlerCancelled {A}.

Section Surface.
Context `{PythonLib} `{Destination}.

(** [settings], the fields outside the core. *)
Variable surface : SurfaceSettings.
(** [datetime.utcnow().isoformat()] at the time of the request. *)
Variable now : pystr.
(** [str(e)] of an exception. *)
Variable str_exn : exn → pystr.

(** main.py, health_check: it reads the two globals and nothing else. *)
Definition health_check (w : World) : JSONResponse :=
  let gcp :=
    match secret_client w with
    | Some _ => {| check_status := py "ok";
                   check_message := py "GCP Secret Manager client initialized" |}
    | None => {| check_status := py "error";
                 check_message := py "GCP client not initialized" |}
    end in
  let kubernetes :=
    match k8s_core_v1 w with
    | Some _ =>
        {| check_status := py "ok";
           check_message :=
             py "Kubernetes client initialized (namespace: "
             ++ k8s_namespace (settings w) ++ py ")" |}
    | None => {| check_status := py "error";
                 check_message := py "Kubernetes client not initialized" |}
    end in
  let status :=
    match secret_client w, k8s_core_v1 w with
    | Some _, Some _ => py "healthy"
    | _, _ => py "unhealthy"
    end in
  {| content := {| health := status; health_timestamp := now;
                   check_gcp := gcp; check_kubernetes := kubernetes |};
     status_code := 200 |}.

(** The token manual_sync reads out of the Authorization header. *)
Definition presented_token (authorization : pystr) : pystr :=
  if Text.startswith (py "Bearer ") authorization
  then Text.strip (Text.remove (py "Bearer ") authorization)
  else Text.strip authorization.

(** The check that opens manual_sync: the [HTTPException] it raises, if
    any. *)
Definition authorize (authorization : option pystr) : option (Z * pystr) :=
  if Text.truthy (api_token surface)
  then
    if negb (Text.truthy authorization)
    then Some (401%Z, py "Authorization header is required")
    else
      let token := presented_token (default [] authorization) in
      if decide (token ≠ default [] (api_token surface))
      then Some (403%Z, py "Invalid token")
      else None
  else None.

(** main.py, manual_sync. *)
Definition manual_sync (authorization : option pystr)
    : World → handled SyncReport * World :=
  λ w,
    match authorize authorization with
    | Some (code, detail) => (HTTPException code detail, w)
    | None =>
        match sync_secrets w with
        | (Return true, w') =>
            (Responds {| report_status := py "success";
                         report_message := py "Secrets synced successfully";
                         report_timestamp := now |}, w')
        | (Return false, w') =>
            (HTTPException 500
               (py "Secret sync failed. Check logs for details."), w')
        | (Raise e, w') =>
            (HTTPException 500 (py "Sync failed: " ++ str_exn e), w')
        | (Cancelled, w') => (HandlerCancelled, w')
        end
    end.

(** What manual_sync answers once the request is let in: the report when
    sync_secrets returned [True], an error 500 otherwise. *)
Definition sync_answer (w : World) : handled SyncReport :=
  match (sync_secrets w).1 with
  | Return true =>
      Responds {| report_status := py "success";
                  report_message := py "Secrets synced successfully";
                  report_timestamp := now |}
  | _ => HTTPException 500 (py "Secret sync failed. Check logs for details.")
  end.

End Surface.

(** [old] occurs in [s]. *)
Definition occurs (old s : pystr) : Prop :=
  ∃ pre post, s = pre ++ old ++ post.

(** The destination answers every request by what it holds. *)
Definition no_fault (api : CoreV1Api) : Prop := ∀ verb, fault api verb = None.

(** ** Start-up (main.py, init_gcp_client, init_k8s_client, lifespan) *)

(** Which configuration the Kubernetes client library has loaded. *)
Inductive kube_config : Type := InCluster | KubeConfigFile.

(** What the process finds around it at start-up: the files that exist, and
    what the constructors and loaders of the two client libraries do. A
    loader answers [None] when it succeeds and the exception when not. *)
Record Host := {
  os_path_exists : pystr → bool;
  new_SecretManagerServiceClient :
    option pystr → exn + SecretManagerServiceClient;
  load_incluster_config : option exn;
  load_kube_config : option exn;
  new_CoreV1Api : kube_config → exn + CoreV1Api;
}.

(** The process: the globals of main.py, the environment variable
    GOOGLE_APPLICATION_CREDENTIALS, and whether the periodic task has been
    created. *)
Record Process := {
  globals : World;
  GOOGLE_APPLICATION_CREDENTIALS : option pystr;
  sync_task : bool;
}.

Section Startup.
Variable surface : SurfaceSettings.
Variable host : Host.

Definition with_secret_client (w : World)
    (client : SecretManagerServiceClient) : World :=
  {| settings := settings w; secret_client := Some client;
     k8s_core_v1 := k8s_core_v1 w; loop := loop w |}.

(** main.py, init_gcp_client. *)
Definition init_gcp_client (p : Process) : bool * Process :=
  let credentials :=
    match gcp_credentials_path surface with
    | Some path =>
        if Text.truthy (Some path) && os_path_exists host path
        then Some path
        else GOOGLE_APPLICATION_CREDENTIALS p
    | None => GOOGLE_APPLICATION_CREDENTIALS p
    end in
  match new_SecretManagerServiceClient host credentials with
  | inr client =>
      (true, {| globals := with_secret_client (globals p) client;
                GOOGLE_APPLICATION_CREDENTIALS := credentials;
                sync_task := sync_task p |})
  | inl _ =>
      (false, {| globals := globals p;
                 GOOGLE_APPLICATION_CREDENTIALS := credentials;
                 sync_task := sync_task p |})
  end.

(** The inner [try] of init_k8s_client: the in-cluster configuration, and
    the kubeconfig file when that fails. *)
Definition load_config : exn + kube_config :=
  match load_incluster_config host with
  | None => inr InCluster
  | Some _ =>
      match load_kube_config host with
      | None => inr KubeConfigFile
      | Some e => inl e
      end
  end.

(** main.py, init_k8s_client. *)
Definition init_k8s_client (p : Process) : bool * Process :=
  match load_config with
  | inl _ => (false, p)
  | inr loaded =>
      match new_CoreV1Api host loaded with
      | inr api =>
          (true, {| globals := Client.with_api (globals p) api;
                    GOOGLE_APPLICATION_CREDENTIALS :=
                      GOOGLE_APPLICATION_CREDENTIALS p;
                    sync_task := sync_task p |})
      | inl _ => (false, p)
      end
  end.

(** main.py, lifespan, up to its [yield]: [inl] is the message of the
    [RuntimeError] raised. *)
Definition lifespan_startup (p : Process) : (string + unit) * Process :=
  let '(ok, p) := init_gcp_client p in
  if negb ok then (inl "GCP client initialization failed"%string, p)
  else
    let '(ok, p) := init_k8s_client p in
    if negb ok
    then (inl "Kubernetes client initialization failed"%string, p)
    else (inr (), {| globals := globals p;
                     GOOGLE_APPLICATION_CREDENTIALS :=
                       GOOGLE_APPLICATION_CREDENTIALS p;
                     sync_task := true |}).

End Startup.

(** ** Sample surface settings, hosts and processes *)

Module Demo.

(** A source serving the bundle with keys B and C, before the destination
    holding A and B. *)
Definition serving_world : World :=
  Sample.world (Some (Sample.serving (Json Sample.bundle_BC)))
               Sample.holding_AB.

Definition with_token (token : pystr) : SurfaceSettings :=
  {| api_token := Some token; gcp_credentials_path := None |}.

Definition without_token : SurfaceSettings :=
  {| api_token := None; gcp_credentials_path := None |}.

Definition str_exn (e : exn) : pystr := py "error".

Definition timestamp : pystr := py "2024-01-01T00:00:00".

(** A host where both libraries work, and one where the source client
    cannot be built. *)
Definition working_host : Host := {|
  os_path_exists := λ _, false;
  new_SecretManagerServiceClient :=
    λ _, inr (Sample.serving (Json Sample.bundle_BC));
  load_incluster_config := Some (Exception "not in a cluster");
  load_kube_config := None;
  new_CoreV1Api := λ _, inr Sample.holding_AB;
|}.

Definition host_without_credentials : Host := {|
  os_path_exists := λ _, false;
  new_SecretManagerServiceClient :=
    λ _, inl (Exception "default credentials not found");
  load_incluster_config := None;
  load_kube_config := None;
  new_CoreV1Api := λ _, inr Sample.holding_AB;
|}.

(** The process before start-up: no client, no task. *)
Definition fresh : Process := {|
  globals := {| settings := Sample.config; secret_client := None;
                k8s_core_v1 := None; loop := Sample.quiet_loop |};
  GOOGLE_APPLICATION_CREDENTIALS := None;
  sync_task := false;
|}.

End Demo.

(** * Properties *)

(** ** The key normalizer *)

Section NormalizerFacts.
Import Normalizer.

Lemma is_valid_char_ascii c : is_valid_char c = true → c < 128.
Proof.
  unfold is_valid_char, dot, underscore, hyphen.
  rewrite !orb_true_iff, !andb_true_iff, !N.leb_le, !N.eqb_eq. lia.
Qed.

Lemma valid_ascii s : valid s → ascii s.
Proof.
  intros Hs. eapply Forall_impl; [exact Hs | apply is_valid_char_ascii].
Qed.

Lemma underscore_valid : is_valid_char underscore = true.
Proof. reflexivity. Qed.

Lemma replace_invalid_valid s : valid (replace_invalid s).
Proof.
  unfold valid, replace_invalid. apply Forall_forall. intros c Hc.
  apply list_elem_of_fmap in Hc as (d & -> & _).
  destruct (is_valid_char d) eqn:E; [exact E | exact underscore_valid].
Qed.

Lemma replace_invalid_fixed s : valid s → replace_invalid s = s.
Proof.
  induction 1 as [|c s Hc _ IH]; [reflexivity|].
  unfold replace_invalid in *. simpl. rewrite Hc. f_equal. exact IH.
Qed.

Lemma encode_ascii_ignore_ascii s : ascii (encode_ascii_ignore s).
Proof.
  apply Forall_forall. intros c Hc.
  apply list_elem_of_filter in Hc. tauto.
Qed.

Lemma encode_ascii_ignore_fixed s : ascii s → encode_ascii_ignore s = s.
Proof.
  induction 1 as [|c s Hc _ IH]; [reflexivity|].
  unfold encode_ascii_ignore in *. rewrite filter_cons_True by exact Hc.
  f_equal. exact IH.
Qed.

(** What [collapse_underscores] keeps is taken from its argument. *)
Lemma collapse_underscores_Forall (P : N → Prop) s :
  Forall P s → Forall P (collapse_underscores s).
Proof.
  induction s as [|c s IH]; intros Hs; [constructor|].
  apply Forall_cons in Hs as [Hc Hs]. specialize (IH Hs).
  simpl. destruct s as [|d s']; [by constructor|].
  destruct ((c =? underscore) && (d =? underscore)); [exact IH|].
  by constructor.
Qed.

Lemma collapse_underscores_head s :
  head (collapse_underscores s) = head s.
Proof.
  induction s as [|c s IH]; [reflexivity|].
  simpl. destruct s as [|d s']; [reflexivity|].
  destruct ((c =? underscore) && (d =? underscore)) eqn:E; [|reflexivity].
  rewrite IH. simpl. apply andb_true_iff in E as [E1 E2].
  apply N.eqb_eq in E1, E2. congruence.
Qed.

Lemma collapse_underscores_no_run s : no_run (collapse_underscores s).
Proof.
  induction s as [|c s IH]; [exact I|].
  simpl. destruct s as [|d s']; [simpl; split; [congruence | exact I]|].
  destruct ((c =? underscore) && (d =? underscore)) eqn:E; [exact IH|].
  split; [|exact IH].
  rewrite collapse_underscores_head. simpl. intros -> [= ->].
  discriminate E.
Qed.

Lemma collapse_underscores_fixed s : no_run s → collapse_underscores s = s.
Proof.
  induction s as [|c s IH]; [reflexivity|].
  intros [Hc Hs]. simpl. destruct s as [|d s']; [reflexivity|].
  destruct ((c =? underscore) && (d =? underscore)) eqn:E.
  - apply andb_true_iff in E as [E1 E2]. apply N.eqb_eq in E1, E2.
    subst. by destruct Hc.
  - f_equal. by apply IH.
Qed.

Lemma no_run_app_l s t : no_run (s ++ t) → no_run s.
Proof.
  induction s as [|c s IH]; [intros _; exact I|].
  simpl. intros [Hc Hs]. split; [|by apply IH].
  intros Hu. specialize (Hc Hu). by destruct s.
Qed.

Lemma no_run_app_r s t : no_run (s ++ t) → no_run t.
Proof. induction s as [|c s IH]; [done|]. simpl. intros [_ Hs]. by apply IH. Qed.

(** [lstrip] leaves a suffix, [rstrip] a prefix. *)
Lemma lstrip_suffix s : ∃ t, s = t ++ lstrip s.
Proof.
  induction s as [|c s [t IH]]; [by exists []|].
  simpl. destruct (is_stripped c); [|by exists []].
  exists (c :: t). simpl. by f_equal.
Qed.

Lemma rstrip_prefix s : ∃ t, s = rstrip s ++ t.
Proof.
  unfold rstrip. destruct (lstrip_suffix (reverse s)) as [t Ht].
  exists (reverse t).
  rewrite <- reverse_app, <- Ht. by rewrite reverse_involutive.
Qed.

Lemma lstrip_head s :
  match lstrip s with [] => True | c :: _ => is_stripped c = false end.
Proof.
  induction s as [|c s IH]; [exact I|].
  simpl. destruct (is_stripped c) eqn:E; [exact IH | exact E].
Qed.

Lemma lstrip_fixed s :
  match s with [] => True | c :: _ => is_stripped c = false end →
  lstrip s = s.
Proof. destruct s as [|c s]; [done|]. simpl. by intros ->. Qed.

Lemma lstrip_lstrip s : lstrip (lstrip s) = lstrip s.
Proof. apply lstrip_fixed, lstrip_head. Qed.

Lemma rstrip_rstrip s : rstrip (rstrip s) = rstrip s.
Proof. unfold rstrip. by rewrite reverse_involutive, lstrip_lstrip. Qed.

Lemma strip_Forall (P : N → Prop) s : Forall P s → Forall P (strip s).
Proof.
  intros Hs. unfold strip.
  destruct (lstrip_suffix s) as [t Ht].
  destruct (rstrip_prefix (lstrip s)) as [u Hu].
  rewrite Ht, Hu in Hs.
  apply Forall_app in Hs as [_ Hs]. by apply Forall_app in Hs as [Hs _].
Qed.

Lemma strip_no_run s : no_run s → no_run (strip s).
Proof.
  intros Hs. unfold strip.
  destruct (lstrip_suffix s) as [t Ht].
  destruct (rstrip_prefix (lstrip s)) as [u Hu].
  rewrite Ht in Hs. apply no_run_app_r in Hs.
  rewrite Hu in Hs. by apply no_run_app_l in Hs.
Qed.

Lemma strip_strip s : strip (strip s) = strip s.
Proof.
  unfold strip.
  assert (lstrip (rstrip (lstrip s)) = rstrip (lstrip s)) as ->.
  { apply lstrip_fixed.
    pose proof (lstrip_head s) as Hh.
    destruct (rstrip_prefix (lstrip s)) as [u Hu].
    destruct (rstrip (lstrip s)) as [|c r]; [exact I|].
    by rewrite Hu in Hh. }
  apply rstrip_rstrip.
Qed.

Lemma matches_grammar_spec s :
  matches_grammar s = true ↔ s ≠ [] ∧ valid s.
Proof.
  unfold matches_grammar, valid. destruct s as [|c s].
  - split; [discriminate | by intros [? _]].
  - rewrite forallb_forall, Forall_forall.
    split; [intros Hs; split; [done|] | intros [_ Hs]];
      intros x Hx; apply Hs; by apply list_elem_of_In.
Qed.

Section WithNFKD.
Variable nfkd : pystr → pystr.

Lemma normalize_secret_key_trimmed key :
  normalize_secret_key nfkd key =
  match trimmed nfkd key with [] => INVALID_KEY | _ => trimmed nfkd key end.
Proof. unfold normalize_secret_key, trimmed. by destruct (strip _). Qed.

Lemma trimmed_valid key : valid (trimmed nfkd key).
Proof.
  apply strip_Forall, collapse_underscores_Forall, replace_invalid_valid.
Qed.

Lemma INVALID_KEY_grammar : matches_grammar INVALID_KEY = true.
Proof. reflexivity. Qed.

(** C2. For every input string the normalizer returns a string that is
    not empty and matches the destination identifier grammar
    [^[A-Za-z0-9._-]+$]; being a function here, given the library's NFKD,
    it has no failure path. *)
Theorem normalize_secret_key_grammar (key : pystr) :
  normalize_secret_key nfkd key ≠ []
  ∧ matches_grammar (normalize_secret_key nfkd key) = true.
Proof.
  rewrite normalize_secret_key_trimmed.
  pose proof (trimmed_valid key) as Hv.
  destruct (trimmed nfkd key) as [|c s] eqn:E.
  - split; [discriminate | exact INVALID_KEY_grammar].
  - split; [discriminate|]. apply matches_grammar_spec. by split.
Qed.

(** NFKD leaves ASCII text as it is: no ASCII code point has a
    decomposition. *)
Hypothesis nfkd_ascii : ∀ s, ascii s → nfkd s = s.

Lemma normalize_secret_key_fixed s :
  s ≠ [] → valid s → no_run s → strip s = s →
  normalize_secret_key nfkd s = s.
Proof.
  intros Hne Hv Hr Hs.
  rewrite normalize_secret_key_trimmed. unfold trimmed.
  rewrite nfkd_ascii by by apply valid_ascii.
  rewrite encode_ascii_ignore_fixed by by apply valid_ascii.
  rewrite replace_invalid_fixed by done.
  rewrite collapse_underscores_fixed by done.
  rewrite Hs. by destruct s.
Qed.

(** C10. The normalizer is idempotent: a key it has produced, the
    fallback [INVALID_KEY] included, comes back unchanged from a second
    application. *)
Theorem normalize_secret_key_idempotent (key : pystr) :
  normalize_secret_key nfkd (normalize_secret_key nfkd key)
  = normalize_secret_key nfkd key.
Proof.
  rewrite (normalize_secret_key_trimmed key).
  destruct (trimmed nfkd key) as [|c s] eqn:E.
  - apply normalize_secret_key_fixed.
    + discriminate.
    + apply matches_grammar_spec, INVALID_KEY_grammar.
    + vm_compute. repeat split; congruence.
    + reflexivity.
  - rewrite <- E. apply normalize_secret_key_fixed.
    + by rewrite E.
    + apply trimmed_valid.
    + apply strip_no_run, collapse_underscores_no_run.
    + apply strip_strip.
Qed.

(** C5. The five test vectors: the empty key and a key of invalid
    characters only give [INVALID_KEY], the capital dotted I of
    "İstanbul" folds to "I", two spaces give one underscore, and leading
    and trailing underscores go. *)
Theorem normalize_secret_key_vectors
    (nfkd_dotted_I :
       nfkd (0x130 :: py "stanbul") = 0x49 :: 0x307 :: py "stanbul") :
  normalize_secret_key nfkd (py "") = py "INVALID_KEY"
  ∧ normalize_secret_key nfkd (0x130 :: py "stanbul") = py "Istanbul"
  ∧ normalize_secret_key nfkd (py "a  b") = py "a_b"
  ∧ normalize_secret_key nfkd (py "__lead.trail__") = py "lead.trail"
  ∧ normalize_secret_key nfkd (py "!!!") = py "INVALID_KEY".
Proof.
  assert (∀ s, forallb (λ c, c <? 128) s = true → nfkd s = s) as Hid.
  { intros s Hs. apply nfkd_ascii, Forall_forall. intros c Hc.
    rewrite forallb_forall in Hs. apply N.ltb_lt, Hs.
    by apply list_elem_of_In. }
  unfold normalize_secret_key.
  rewrite nfkd_dotted_I, !Hid by reflexivity.
  repeat split; reflexivity.
Qed.

End WithNFKD.

Lemma decomposition_ascii c : c < 128 → decomposition c = [c].
Proof.
  intros Hc. destruct c as [|p]; [reflexivity|].
  do 8 (try destruct p as [p|p|]); try reflexivity; lia.
Qed.

Lemma nfkd_fragment_ascii s : ascii s → nfkd_fragment s = s.
Proof.
  induction 1 as [|c s Hc _ IH]; [reflexivity|].
  unfold nfkd_fragment in *. simpl.
  rewrite decomposition_ascii by exact Hc. simpl. by f_equal.
Qed.

End NormalizerFacts.

(** ** The sink adapter *)

Section SinkFacts.
Context `{PythonLib} `{Destination}.
Import Client.

Ltac run_update Hapi :=
  unfold update_k8s_secret; rewrite Hapi;
  unfold try_except, bind, try_except_ApiException, read_namespaced_secret,
    patch_namespaced_secret, create_namespaced_secret, request;
  simpl; rewrite ?Hapi; simpl.

Section OneCall.
Variable w : World.
Variable api : CoreV1Api.
Variable items : list (pystr * pyval).
Hypothesis Hapi : k8s_core_v1 w = Some api.

Let nm := k8s_secret_name (settings w).
Let ns := k8s_namespace (settings w).
Let body := secret_body w items.
Let read := received (ReadSecret nm ns) api.

(** The read is answered with an error other than not-found. *)
Lemma update_read_fault e :
  fault api READ = Some e → e ≠ not_found →
  update_k8s_secret (PyDict items) w = (Raise e, with_api w read).
Proof.
  intros Hf Hne. run_update Hapi. rewrite Hf.
  destruct e as [status| | | | |]; try reflexivity.
  case_decide; [subst; by destruct Hne | reflexivity].
Qed.

(** The object is absent: the read signals not-found and a create
    follows, whatever its answer. *)
Lemma update_absent :
  fault api READ = None → objects api !! (ns, nm) = None →
  update_k8s_secret (PyDict items) w
  = match fault api CREATE with
    | Some e =>
        (Raise e, with_api w (received (CreateSecret ns body) read))
    | None =>
        (Return true,
         with_api w
           (holding (<[(ns, nm) := created body]> (objects api))
              (received (CreateSecret ns body) read)))
    end.
Proof.
  intros Hf Ho. run_update Hapi. rewrite Hf. fold ns nm. rewrite Ho.
  simpl. destruct (fault api CREATE) as [e|]; [reflexivity|].
  fold ns nm. rewrite Ho. reflexivity.
Qed.

(** The object is there: a patch follows the read; any answer to it
    other than not-found ends the call. *)
Lemma update_present content :
  fault api READ = None → objects api !! (ns, nm) = Some content →
  fault api PATCH ≠ Some not_found →
  update_k8s_secret (PyDict items) w
  = match fault api PATCH with
    | Some e =>
        (Raise e, with_api w (received (PatchSecret nm ns body) read))
    | None =>
        (Return true,
         with_api w
           (holding (<[(ns, nm) := patched content body]> (objects api))
              (received (PatchSecret nm ns body) read)))
    end.
Proof.
  intros Hf Ho Hp. run_update Hapi. rewrite Hf. fold ns nm. rewrite Ho.
  simpl. destruct (fault api PATCH) as [e|] eqn:E.
  - destruct e as [status| | | | |]; try reflexivity.
    case_decide; [subst; by destruct Hp | reflexivity].
  - fold ns nm. rewrite Ho. reflexivity.
Qed.

(** The object is there and the patch is answered with not-found all the
    same (the object went away after the read): the handler takes the
    answer for the read's and a create follows the patch. *)
Lemma update_patch_not_found content :
  fault api READ = None → objects api !! (ns, nm) = Some content →
  fault api PATCH = Some not_found →
  calls_of (update_k8s_secret (PyDict items) w).2
  = CreateSecret ns body :: PatchSecret nm ns body :: calls read.
Proof.
  intros Hf Ho Hp. run_update Hapi. rewrite Hf. fold ns nm. rewrite Ho.
  simpl. rewrite Hp. simpl.
  destruct (fault api CREATE) as [e|]; [reflexivity|].
  fold ns nm. rewrite Ho. reflexivity.
Qed.

(** Not a dict: [.items()] fails before any request is made. *)
Lemma update_not_a_dict secrets :
  Builtins.py_items secrets = None →
  update_k8s_secret secrets w = (Raise AttributeError, w).
Proof. intros Hi. run_update Hapi. by rewrite Hi. Qed.

End OneCall.

Lemma calls_made_app w w' new :
  calls_of w' = new ++ calls_of w → calls_made w w' = new.
Proof.
  intros E. unfold calls_made. rewrite E, length_app.
  replace (_ + _ - _)%nat with (List.length new) by lia.
  by rewrite take_app_length.
Qed.

Lemma calls_made_same w : calls_made w w = [].
Proof. by apply calls_made_app. Qed.

(** Whatever the destination answers, update_k8s_secret is not cancelled,
    touches nothing but the destination, and every write it sends has the
    body [secret_body]. *)
Lemma update_k8s_secret_effect w secrets :
  let r := update_k8s_secret secrets w in
  r.1 ≠ Cancelled
  ∧ loop r.2 = loop w ∧ settings r.2 = settings w
  ∧ secret_client r.2 = secret_client w
  ∧ ∀ items, secrets = PyDict items →
      Forall (λ call, ∀ body, written call = Some body →
                              body = secret_body w items)
             (calls_made w r.2).
Proof.
  cbv zeta. unfold update_k8s_secret.
  destruct (k8s_core_v1 w) as [api|] eqn:Hapi.
  2:{ simpl. split_and!; try done. intros. by rewrite calls_made_same. }
  unfold try_except, bind, try_except_ApiException, read_namespaced_secret,
    patch_namespaced_secret, create_namespaced_secret, request, ret, raise.
  destruct secrets as [| | | | | |items]; simpl;
    try (split_and!; try done; intros; by rewrite calls_made_same).
  rewrite Hapi. simpl.
  repeat (first [case_match | case_decide]; simplify_eq/=).
  all: split_and!; try done.
  all: intros ? [= <-].
  all: erewrite calls_made_app by (unfold calls_of; simpl; rewrite Hapi;
       first [ by instantiate (1 := [_]) | by instantiate (1 := [_; _])
             | by instantiate (1 := [_; _; _]) ]).
  all: repeat constructor; simpl; try done.
  all: by intros ? [= <-].
Qed.

End SinkFacts.

(** ** The source adapter and one cycle *)

Section CycleFacts.
Context `{PythonLib} `{Destination}.

(** fetch_gcp_secret by the answer of the source; the world is as it was. *)
Lemma fetch_gcp_secret_answer w :
  fetch_gcp_secret w
  = (match source_answer w with
     | None => Raise (Exception "GCP client not initialized")
     | Some (inl e) => Raise e
     | Some (inr NotUtf8) => Raise UnicodeDecodeError
     | Some (inr NotJson) => Raise JSONDecodeError
     | Some (inr (Json secrets)) =>
         if has_len secrets then Return secrets else Raise TypeError
     end, w).
Proof.
  unfold fetch_gcp_secret, source_answer, secret_path.
  destruct (secret_client w) as [client|]; simpl; [|reflexivity].
  unfold try_except, bind, ret, raise.
  destruct (access_secret_version client _) as [e|[| |secrets]]; try reflexivity.
  by destruct secrets.
Qed.

Lemma fetch_gcp_secret_world w : (fetch_gcp_secret w).2 = w.
Proof. by rewrite fetch_gcp_secret_answer. Qed.

(** sync_secrets once the fetch has returned. *)
Lemma sync_secrets_fetched w secrets :
  (fetch_gcp_secret w).1 = Return secrets →
  sync_secrets w
  = match update_k8s_secret secrets w with
    | (Return _, w') => (Return true, w')
    | (Raise _, w') => (Return false, w')
    | (Cancelled, w') => (Cancelled, w')
    end.
Proof.
  intros Hf. unfold sync_secrets, try_except, bind, ret.
  destruct (fetch_gcp_secret w) as [r w1] eqn:E.
  pose proof (fetch_gcp_secret_world w) as Hw. rewrite E in Hw.
  simpl in *. subst.
  by destruct (update_k8s_secret secrets w) as [[?|?|] ?].
Qed.

Lemma sync_secrets_fetch_raises w e :
  (fetch_gcp_secret w).1 = Raise e → sync_secrets w = (Return false, w).
Proof.
  intros Hf. unfold sync_secrets, try_except, bind, ret.
  destruct (fetch_gcp_secret w) as [r w1] eqn:E.
  pose proof (fetch_gcp_secret_world w) as Hw. rewrite E in Hw.
  simpl in *. by subst.
Qed.

(** C4. When the fetch fails, sync_secrets catches the failure and
    returns [False]; the world is left as it was: the destination has
    received no request and its object is unmodified. *)
Theorem sync_secrets_fetch_failure (w : World) (e : exn) :
  (fetch_gcp_secret w).1 = Raise e →
  (sync_secrets w).1 = Return false
  ∧ calls_made w (sync_secrets w).2 = []
  ∧ destination_content (sync_secrets w).2 = destination_content w.
Proof.
  intros Hf. rewrite (sync_secrets_fetch_raises w e Hf). simpl.
  by rewrite calls_made_same.
Qed.

Lemma sync_secrets_reconciler : reconciler sync_secrets.
Proof.
  intros w.
  destruct (fetch_gcp_secret w).1 as [secrets|e|] eqn:Hf.
  - rewrite (sync_secrets_fetched w secrets Hf).
    destruct (update_k8s_secret_effect w secrets) as (Hc & Hl & Hs & _).
    by destruct (update_k8s_secret secrets w) as [[?|?|] ?].
  - by rewrite (sync_secrets_fetch_raises w e Hf).
  - rewrite fetch_gcp_secret_answer in Hf. simpl in Hf.
    by repeat case_match.
Qed.

End CycleFacts.

(** ** The bundle: what the source returns and what the sink sends *)

Section BundleFacts.
Context `{PythonLib} `{Destination}.

Local Abbreviation normalize :=
  (Normalizer.normalize_secret_key unicodedata_normalize_NFKD).

Lemma build_string_data_snoc items k v :
  build_string_data (items ++ [(k, v)])
  = <[normalize k := Builtins.py_str v]> (build_string_data items).
Proof. unfold build_string_data. by rewrite foldl_snoc. Qed.

(** Every entry of the bundle built comes from an item of the source:
    its key normalized, its value stringified. *)
Lemma build_string_data_source items key s :
  build_string_data items !! key = Some s →
  ∃ k v, (k, v) ∈ items ∧ key = normalize k ∧ s = Builtins.py_str v.
Proof.
  induction items as [|[k v] items IH] using rev_ind; [done|].
  rewrite build_string_data_snoc.
  destruct (decide (normalize k = key)) as [<-|Hne].
  - rewrite lookup_insert_eq. intros [= <-]. exists k, v.
    split; [|done]. apply elem_of_app. right. by apply list_elem_of_singleton.
  - rewrite lookup_insert_ne by done. intros Hs.
    destruct (IH Hs) as (k' & v' & Hin & -> & ->). exists k', v'.
    split; [|done]. apply elem_of_app. by left.
Qed.

(** The last item whose key normalizes to an identifier gives the value
    under that identifier. *)
Lemma build_string_data_last pre k v post :
  Forall (λ kv, normalize kv.1 ≠ normalize k) post →
  build_string_data (pre ++ (k, v) :: post) !! normalize k
  = Some (Builtins.py_str v).
Proof.
  induction post as [|[k' v'] post IH] using rev_ind; intros Hpost.
  - rewrite build_string_data_snoc. apply lookup_insert_eq.
  - apply Forall_app in Hpost as [Hpost Hk'].
    rewrite Forall_singleton in Hk'.
    rewrite app_comm_cons, app_assoc, build_string_data_snoc.
    rewrite lookup_insert_ne by exact Hk'. by apply IH.
Qed.

(** What every write of update_k8s_secret carries. *)
Lemma update_k8s_secret_writes w items call body :
  call ∈ calls_made w (update_k8s_secret (PyDict items) w).2 →
  written call = Some body →
  string_data body = Some (build_string_data items) ∧ data body = None.
Proof.
  intros Hin Hw.
  destruct (update_k8s_secret_effect w (PyDict items)) as (_ & _ & _ & _ & Hall).
  specialize (Hall items eq_refl).
  rewrite Forall_forall in Hall. by rewrite (Hall call Hin body Hw).
Qed.

(** C6, as amended. The fetch fails when the payload is not UTF-8 text,
    is not JSON, or parses to a document that has no length (null, a
    boolean, a number). Whenever it succeeds, its result is the document
    [json.loads] returned, unchanged: a mapping, an array or a string, and
    a mapping is not checked to be flat. *)
Theorem fetch_gcp_secret_outcome (w : World) :
  (∀ doc, (fetch_gcp_secret w).1 = Return doc
          ↔ source_answer w = Some (inr (Json doc)) ∧ has_len doc = true)
  ∧ (source_answer w = Some (inr NotUtf8) →
     (fetch_gcp_secret w).1 = Raise UnicodeDecodeError)
  ∧ (source_answer w = Some (inr NotJson) →
     (fetch_gcp_secret w).1 = Raise JSONDecodeError)
  ∧ (∀ doc, source_answer w = Some (inr (Json doc)) → has_len doc = false →
     (fetch_gcp_secret w).1 = Raise TypeError).
Proof.
  rewrite fetch_gcp_secret_answer. simpl. split_and!.
  - intros doc. split.
    + intros Hr. repeat case_match; by simplify_eq.
    + by intros [-> ->].
  - by intros ->.
  - by intros ->.
  - by intros doc -> ->.
Qed.

(** C7, as amended. The bundle the fetch returns is the parsed document
    itself, keys and values as the source has them (a number stays a
    number). The values are stringified in update_k8s_secret: every write
    it sends carries, under each key, [str] of the value of a source item
    whose key normalizes to that key. *)
Theorem values_stringified_in_sink (w : World)
    (items : list (pystr * pyval)) :
  (∀ doc, (fetch_gcp_secret w).1 = Return doc →
          source_answer w = Some (inr (Json doc)))
  ∧ (∀ call body,
       call ∈ calls_made w (update_k8s_secret (PyDict items) w).2 →
       written call = Some body →
       ∃ bundle, string_data body = Some bundle
         ∧ ∀ key s, bundle !! key = Some s →
             ∃ k v, (k, v) ∈ items ∧ key = normalize k
                    ∧ s = Builtins.py_str v).
Proof.
  split.
  - intros doc. rewrite fetch_gcp_secret_answer. simpl. intros Hr.
    repeat case_match; by simplify_eq.
  - intros call body Hin Hw.
    destruct (update_k8s_secret_writes w items call body Hin Hw) as [Hsd _].
    exists (build_string_data items). split; [done|].
    apply build_string_data_source.
Qed.

(** C8. When two distinct source keys normalize to the same identifier,
    the bundle sent to the destination holds under that identifier the
    stringified value of the one that comes later in iteration order (the
    last such key): the earlier value is overwritten. *)
Theorem later_colliding_key_overwrites (w : World)
    (pre mid post : list (pystr * pyval)) (k1 k2 : pystr) (v1 v2 : pyval) :
  k1 ≠ k2 →
  normalize k1 = normalize k2 →
  Forall (λ kv, normalize kv.1 ≠ normalize k2) post →
  let items := pre ++ (k1, v1) :: mid ++ (k2, v2) :: post in
  build_string_data items !! normalize k1 = Some (Builtins.py_str v2)
  ∧ ∀ call body,
      call ∈ calls_made w (update_k8s_secret (PyDict items) w).2 →
      written call = Some body →
      ∃ bundle, string_data body = Some bundle
                ∧ bundle !! normalize k1 = Some (Builtins.py_str v2).
Proof.
  intros _ Hcollide Hpost items.
  assert (build_string_data items !! normalize k1
          = Some (Builtins.py_str v2)) as Hlast.
  { rewrite Hcollide. unfold items.
    rewrite app_comm_cons, app_assoc. by apply build_string_data_last. }
  split; [done|]. intros call body Hin Hw.
  destruct (update_k8s_secret_writes w items call body Hin Hw) as [Hsd _].
  by exists (build_string_data items).
Qed.

End BundleFacts.

(** The payload [[1]] is valid JSON and not a mapping: the fetch succeeds and
    returns the array. *)
Lemma fetch_gcp_secret_returns_array :
  (fetch_gcp_secret Sample.array_world).1 = Return (PyList [PyInt 1])
  ∧ is_flat_mapping (PyList [PyInt 1]) = false.
Proof. split; reflexivity. Qed.

(** The payload [{"port": 8080}]: the fetch returns the mapping with the
    number in it, not a string. *)
Lemma fetch_gcp_secret_returns_number_value :
  (fetch_gcp_secret Sample.port_world).1
  = Return (PyDict [(py "port", PyInt 8080)])
  ∧ maps_to_strings (PyDict [(py "port", PyInt 8080)]) = false.
Proof. split; reflexivity. Qed.

(** The array is turned down by the sink, at [.items()], before any request
    to the destination; the number is sent as its decimal digits. *)
Example array_stops_in_sink :
  @update_k8s_secret python_fragment kubernetes (PyList [PyInt 1])
    Sample.array_world
  = (Raise AttributeError, Sample.array_world).
Proof. reflexivity. Qed.

Example number_sent_as_digits :
  @build_string_data python_fragment [(py "port", PyInt 8080)] !! py "port"
  = Some (py "8080").
Proof. vm_compute. reflexivity. Qed.

(** ** Create or update *)

Section UpsertFacts.
Context `{PythonLib} `{Destination}.

Lemma sync_secrets_sink_raises w secrets e :
  (fetch_gcp_secret w).1 = Return secrets →
  (update_k8s_secret secrets w).1 = Raise e →
  (sync_secrets w).1 = Return false.
Proof.
  intros Hf Hu. rewrite (sync_secrets_fetched w secrets Hf).
  by destruct (update_k8s_secret secrets w) as [[?|?|] ?]; simplify_eq/=.
Qed.

Ltac count_made Hapi :=
  erewrite calls_made_app
    by (unfold calls_of; simpl; rewrite Hapi; by instantiate (1 := [_; _]));
  done.

(** C3. On a destination that signals not-found only for an object it
    does not hold: when the object is absent (the read signals not-found)
    update_k8s_secret sends exactly one create and no patch; when the
    object exists it sends exactly one patch and no create; and an error
    answered to the read or to the write goes on to the caller, so that
    the cycle ends with [False]. *)
Theorem update_k8s_secret_create_or_patch (w : World) (api : CoreV1Api)
    (items : list (pystr * pyval)) :
  k8s_core_v1 w = Some api →
  (∀ verb, fault api verb ≠ Some not_found) →
  let r := update_k8s_secret (PyDict items) w in
  let made := calls_made w r.2 in
  (fault api READ = None → destination_content w = None →
   count_calls CREATE made = 1%nat ∧ count_calls PATCH made = 0%nat)
  ∧ (fault api READ = None → is_Some (destination_content w) →
     count_calls PATCH made = 1%nat ∧ count_calls CREATE made = 0%nat)
  ∧ (∀ e,
       fault api READ = Some e
       ∨ (fault api READ = None ∧ is_Some (destination_content w)
          ∧ fault api PATCH = Some e)
       ∨ (fault api READ = None ∧ destination_content w = None
          ∧ fault api CREATE = Some e) →
       r.1 = Raise e
       ∧ ((fetch_gcp_secret w).1 = Return (PyDict items) →
          (sync_secrets w).1 = Return false)).
Proof.
  intros Hapi Hnf. cbv zeta.
  unfold destination_content. rewrite Hapi. simpl. split_and!.
  - intros Hr Hd. rewrite (update_absent w api items Hapi Hr Hd).
    destruct (fault api CREATE); simpl; count_made Hapi.
  - intros Hr [content Hd].
    rewrite (update_present w api items Hapi content Hr Hd (Hnf PATCH)).
    destruct (fault api PATCH); simpl; count_made Hapi.
  - intros e Hcase.
    assert ((update_k8s_secret (PyDict items) w).1 = Raise e) as Hraise.
    { destruct Hcase as [Hr | [(Hr & [content Hd] & Hp) | (Hr & Hd & Hc)]].
      + rewrite (update_read_fault w api items Hapi e Hr); [done|].
        intros ->. by apply (Hnf READ).
      + rewrite (update_present w api items Hapi content Hr Hd (Hnf PATCH)).
        by rewrite Hp.
      + rewrite (update_absent w api items Hapi Hr Hd). by rewrite Hc. }
    split; [done|]. intros Hf.
    by apply (sync_secrets_sink_raises w (PyDict items) e).
Qed.

End UpsertFacts.

(** On the Kubernetes destination the patch lays the bundle over the
    content held: the keys of the old object that the bundle lacks stay. *)
Lemma update_k8s_secret_lays_over `{PythonLib} (w : World) (api : CoreV1Api)
    (items : list (pystr * pyval)) (content : gmap pystr pystr) :
  k8s_core_v1 w = Some api →
  (∀ verb, fault api verb = None) →
  destination_content w = Some content →
  destination_content (update_k8s_secret (PyDict items) w).2
  = Some (build_string_data items ∪ content).
Proof.
  intros Hapi Hnf Hd. unfold destination_content in Hd.
  rewrite Hapi in Hd. simpl in Hd.
  rewrite (update_present w api items Hapi content (Hnf READ) Hd)
    by (rewrite Hnf; discriminate).
  rewrite Hnf. unfold destination_content. simpl.
  rewrite lookup_insert_eq. f_equal. unfold carried. simpl.
  by rewrite (right_id_L ∅ (∪)).
Qed.

(** C1. The destination object holds A and B and the bundle has B and C:
    after update_k8s_secret the object holds A, B and C. The key A, absent
    from the bundle, is still there with its old value, so the content is
    not the bundle. *)
Theorem update_k8s_secret_keeps_old_key :
  destination_content (Sample.world None Sample.holding_AB)
  = Some {[ py "A" := py "1"; py "B" := py "2" ]}
  ∧ destination_content Sample.after_update
    = Some {[ py "A" := py "1"; py "B" := py "3"; py "C" := py "4" ]}
  ∧ destination_content Sample.after_update
    ≠ Some {[ py "B" := py "3"; py "C" := py "4" ]}.
Proof.
  assert (destination_content Sample.after_update
          = Some {[ py "A" := py "1"; py "B" := py "3"; py "C" := py "4" ]})
    as Hafter by (vm_compute; reflexivity).
  split_and!; [vm_compute; reflexivity | exact Hafter |].
  rewrite Hafter. intros Heq. apply (inj Some) in Heq.
  apply (f_equal (λ m : gmap pystr pystr, m !! py "A")) in Heq.
  vm_compute in Heq. discriminate Heq.
Qed.

(** ** The scheduler *)

Section SchedulerFacts.
Import Client.
Variable cycle : M bool.
Hypothesis cycle_reconciler : reconciler cycle.

Lemma asyncio_sleep_outcome seconds w :
  asyncio_sleep seconds w
  = (if cancelled_next w then Cancelled else Return (), slept seconds w).
Proof.
  reflexivity.
Qed.

Lemma periodic_sync_turn_sleep w :
  periodic_sync_turn cycle w
  = asyncio_sleep (pause cycle w) (cycle (counted w)).2.
Proof.
  unfold periodic_sync_turn, pause, try_except, bind.
  change (cycle_invoked w) with (Return (), counted w).
  destruct (cycle_reconciler (counted w)) as (Hc & _ & Hs).
  destruct (cycle (counted w)) as [[b|e|] w1]; simpl in *;
    [| done | by destruct Hc].
  unfold asyncio_sleep. simpl. rewrite !Hs.
  change (settings (counted w)) with (settings w).
  by destruct (cancel_during_sleep (loop w1) (List.length (sleeps (loop w1)))).
Qed.

Lemma periodic_sync_turn_effect w :
  let r := periodic_sync_turn cycle w in
  r.1 = (if cancelled_next w then Cancelled else Return ())
  ∧ sleeps (loop r.2) = pause cycle w :: sleeps (loop w)
  ∧ cancel_during_sleep (loop r.2) = cancel_during_sleep (loop w)
  ∧ cycles (loop r.2) = S (cycles (loop w))
  ∧ settings r.2 = settings w.
Proof.
  cbv zeta. rewrite periodic_sync_turn_sleep, asyncio_sleep_outcome.
  destruct (cycle_reconciler (counted w)) as (_ & Hl & Hs).
  unfold slept, cancelled_next, asyncio_sleep. simpl. rewrite Hl, Hs.
  done.
Qed.

Lemma undisturbed_next w n :
  undisturbed w (S n) →
  cancelled_next w = false
  ∧ undisturbed (periodic_sync_turn cycle w).2 n.
Proof.
  intros Hu. split.
  - unfold cancelled_next. rewrite <- (Nat.add_0_r (List.length _)).
    apply Hu. lia.
  - intros i Hi.
    destruct (periodic_sync_turn_effect w) as (_ & -> & -> & _).
    simpl. rewrite <- Nat.add_succ_r. apply Hu. lia.
Qed.

(** C9. With any reconciler in the place of sync_secrets, one that fails
    at every cycle included: a turn of the loop invokes the cycle and
    then sleeps, for the configured interval when the cycle returned and
    for 60 seconds when it raised; no failure of a cycle ends the loop;
    as long as no cancellation arrives during a sleep the loop goes on,
    one more cycle invoked after each sleep; and it stops only by a
    cancellation observed during a sleep. *)
Theorem periodic_sync_liveness (n : nat) (w : World) :
  let r := periodic_sync_of cycle n w in
  (∀ w', periodic_sync_turn cycle w'
         = asyncio_sleep (pause cycle w') (cycle (counted w')).2)
  ∧ (∀ e, r.1 ≠ Raise e)
  ∧ (undisturbed w n →
     r.1 = Return ()
     ∧ cycles (loop r.2) = (cycles (loop w) + n)%nat
     ∧ ∃ new, sleeps (loop r.2) = new ++ sleeps (loop w)
              ∧ List.length new = n
              ∧ Forall (λ d, d = sync_interval_seconds (settings w)
                             ∨ d = 60%Z) new)
  ∧ (r.1 = Cancelled →
     ∃ i, (i < n)%nat
          ∧ undisturbed w i
          ∧ cancel_during_sleep (loop w)
              (List.length (sleeps (loop w)) + i) = true
          ∧ cycles (loop r.2) = (cycles (loop w) + S i)%nat).
Proof.
  cbv zeta. split; [exact periodic_sync_turn_sleep|].
  revert w. induction n as [|n IH]; intros w.
  { simpl. split_and!; [done | | done].
    intros _. split_and!; [done | lia |]. by exists []. }
  simpl. unfold bind.
  destruct (periodic_sync_turn_effect w) as (Hr & Hsl & Hca & Hcy & Hse).
  destruct (periodic_sync_turn cycle w) as [r1 w1] eqn:Hturn.
  simpl in *. subst r1.
  destruct (cancelled_next w) eqn:Hnext.
  - simpl. split_and!; [done | |].
    + intros Hu. destruct (undisturbed_next w n Hu) as [Hn _]. congruence.
    + intros _. exists 0%nat. split_and!; [lia | | | lia].
      * intros i Hi. lia.
      * by rewrite Nat.add_0_r.
  - destruct (IH w1) as (Hraise & Hlive & Hstop). split_and!; [done | |].
    + intros Hu. destruct (undisturbed_next w n Hu) as [_ Hu1].
      rewrite Hturn in Hu1.
      destruct (Hlive Hu1) as (Hret & Hcyc & new & Hnew & Hlen & Hall).
      split_and!; [done | lia |].
      exists (new ++ [pause cycle w]). split_and!.
      * by rewrite Hnew, Hsl, <- app_assoc.
      * rewrite length_app. simpl. lia.
      * apply Forall_app. split.
        -- by rewrite Hse in Hall.
        -- apply Forall_singleton. unfold pause.
           destruct (cycle (counted w)).1; auto.
    + intros Hc. destruct (Hstop Hc) as (i & Hi & Hu & Hflag & Hcyc).
      exists (S i). split_and!; [lia | | | lia].
      * intros j Hj. destruct j as [|j].
        -- by rewrite Nat.add_0_r.
        -- specialize (Hu j ltac:(lia)). rewrite Hsl, Hca in Hu.
           simpl in Hu. by rewrite Nat.add_succ_r.
      * rewrite Hsl, Hca in Hflag. simpl in Hflag.
        by rewrite Nat.add_succ_r.
Qed.

End SchedulerFacts.

(** ** The properties at sample inputs *)

(** The test vectors with the decomposition fragment for NFKD. *)
Lemma normalize_secret_key_vectors_witness :
  Normalizer.normalize_secret_key Normalizer.nfkd_fragment (py "")
  = py "INVALID_KEY"
  ∧ Normalizer.normalize_secret_key Normalizer.nfkd_fragment
      (0x130 :: py "stanbul") = py "Istanbul"
  ∧ Normalizer.normalize_secret_key Normalizer.nfkd_fragment (py "a  b")
    = py "a_b"
  ∧ Normalizer.normalize_secret_key Normalizer.nfkd_fragment
      (py "__lead.trail__") = py "lead.trail"
  ∧ Normalizer.normalize_secret_key Normalizer.nfkd_fragment (py "!!!")
    = py "INVALID_KEY".
Proof.
  apply (normalize_secret_key_vectors Normalizer.nfkd_fragment
           nfkd_fragment_ascii).
  reflexivity.
Defined.

(** A key with spaces and underscores around it, normalized twice. *)
Lemma normalize_secret_key_idempotent_witness :
  Normalizer.normalize_secret_key Normalizer.nfkd_fragment
    (Normalizer.normalize_secret_key Normalizer.nfkd_fragment
       (py "__db pass.word__"))
  = Normalizer.normalize_secret_key Normalizer.nfkd_fragment
      (py "__db pass.word__").
Proof.
  apply (normalize_secret_key_idempotent Normalizer.nfkd_fragment
           nfkd_fragment_ascii).
Defined.

(** No source client: the fetch raises and the cycle returns [False]. *)
Lemma sync_secrets_fetch_failure_witness :
  (fetch_gcp_secret Sample.failing_world).1
  = Raise (Exception "GCP client not initialized")
  ∧ (@sync_secrets python_fragment kubernetes Sample.failing_world).1
    = Return false
  ∧ calls_made Sample.failing_world
      (@sync_secrets python_fragment kubernetes Sample.failing_world).2 = []
  ∧ destination_content
      (@sync_secrets python_fragment kubernetes Sample.failing_world).2
    = destination_content Sample.failing_world.
Proof.
  split; [reflexivity|].
  apply (@sync_secrets_fetch_failure python_fragment kubernetes
           Sample.failing_world (Exception "GCP client not initialized")).
  reflexivity.
Defined.

(** The keys "db pass" and "db_pass" both normalize to "db_pass": the value
    of the second one is the one sent. *)
Lemma later_colliding_key_overwrites_witness :
  @build_string_data python_fragment
    [(py "db pass", PyStr (py "old")); (py "db_pass", PyInt 7)]
  !! py "db_pass" = Some (py "7").
Proof.
  apply (@later_colliding_key_overwrites python_fragment kubernetes
           Sample.failing_world [] [] [] (py "db pass") (py "db_pass")
           (PyStr (py "old")) (PyInt 7)).
  - discriminate.
  - reflexivity.
  - constructor.
Defined.

(** The object exists: one patch, no create. *)
Lemma update_k8s_secret_create_or_patch_witness :
  count_calls PATCH
    (calls_made Sample.failing_world
       (@update_k8s_secret python_fragment kubernetes Sample.bundle_BC
          Sample.failing_world).2) = 1%nat
  ∧ count_calls CREATE
      (calls_made Sample.failing_world
         (@update_k8s_secret python_fragment kubernetes Sample.bundle_BC
            Sample.failing_world).2) = 0%nat.
Proof.
  apply (@update_k8s_secret_create_or_patch python_fragment kubernetes
           Sample.failing_world Sample.holding_AB
           [(py "B", PyStr (py "3")); (py "C", PyStr (py "4"))]).
  - reflexivity.
  - intros verb. discriminate.
  - reflexivity.
  - exists Sample.old_content. reflexivity.
Defined.

(** Three turns of the loop around sync_secrets without a source client:
    every cycle fails, and three cycles were invoked. *)
Lemma periodic_sync_liveness_witness :
  (@periodic_sync python_fragment kubernetes 3 Sample.failing_world).1
  = Return ()
  ∧ cycles (loop (@periodic_sync python_fragment kubernetes 3
                    Sample.failing_world).2) = 3%nat.
Proof.
  destruct (periodic_sync_liveness
              (@sync_secrets python_fragment kubernetes)
              (@sync_secrets_reconciler python_fragment kubernetes)
              3 Sample.failing_world) as (_ & _ & Hlive & _).
  destruct Hlive as (Hr & Hc & _).
  - intros i _. reflexivity.
  - split; [exact Hr | exact Hc].
Defined.

(** * Further properties *)

(** ** The key normalizer: its fixed points and the shape of its results *)

Section NormalizerShape.
Import Normalizer.
Variable nfkd : pystr → pystr.

Lemma lstrip_strip s : lstrip (strip s) = strip s.
Proof.
  unfold strip. apply lstrip_fixed.
  pose proof (lstrip_head s) as Hh.
  destruct (rstrip_prefix (lstrip s)) as [u Hu].
  destruct (rstrip (lstrip s)) as [|c r]; [exact I|].
  by rewrite Hu in Hh.
Qed.

Lemma rstrip_strip s : rstrip (strip s) = strip s.
Proof. unfold strip. apply rstrip_rstrip. Qed.

Lemma lstrip_fixed_head s c :
  lstrip s = s → head s = Some c → is_stripped c = false.
Proof.
  intros Hs Hc. pose proof (lstrip_head s) as Hh. rewrite Hs in Hh.
  destruct s as [|d s]; simplify_eq/=. exact Hh.
Qed.

Lemma rstrip_fixed_last s c :
  rstrip s = s → last s = Some c → is_stripped c = false.
Proof.
  unfold rstrip. intros Hs Hc.
  apply (lstrip_fixed_head (reverse s)).
  - apply (f_equal reverse) in Hs. by rewrite reverse_involutive in Hs.
  - by rewrite head_reverse.
Qed.

(** What every result of the normalizer is like. *)
Lemma normalize_secret_key_shape key :
  let out := normalize_secret_key nfkd key in
  out ≠ [] ∧ valid out ∧ no_run out ∧ strip out = out.
Proof.
  cbv zeta. rewrite normalize_secret_key_trimmed.
  destruct (trimmed nfkd key) as [|c s] eqn:E.
  - split_and!; [done | | | reflexivity].
    + apply matches_grammar_spec, INVALID_KEY_grammar.
    + vm_compute. repeat split; congruence.
  - rewrite <- E. split_and!.
    + by rewrite E.
    + apply trimmed_valid.
    + apply strip_no_run, collapse_underscores_no_run.
    + apply strip_strip.
Qed.

(** X1. Beyond the grammar, a normalized key never has two underscores side
    by side, and neither its first nor its last character is an underscore
    or a dot. *)
Theorem normalize_secret_key_no_run_no_edge (key : pystr) :
  let out := normalize_secret_key nfkd key in
  no_run out
  ∧ (∀ c, head out = Some c → c ≠ underscore ∧ c ≠ dot)
  ∧ (∀ c, last out = Some c → c ≠ underscore ∧ c ≠ dot).
Proof.
  cbv zeta.
  destruct (normalize_secret_key_shape key) as (_ & _ & Hrun & Hstrip).
  assert (∀ c, is_stripped c = false → c ≠ underscore ∧ c ≠ dot) as Hchar.
  { intros c. unfold is_stripped. rewrite orb_false_iff, !N.eqb_neq. tauto. }
  split_and!; [done | |]; intros c Hc; apply Hchar.
  - apply (lstrip_fixed_head (normalize_secret_key nfkd key)); [|done].
    rewrite <- Hstrip. apply lstrip_strip.
  - apply (rstrip_fixed_last (normalize_secret_key nfkd key)); [|done].
    rewrite <- Hstrip. apply rstrip_strip.
Qed.

(** X2. A key whose decomposition has no ASCII character at all (a key in
    a non-Latin script) normalizes to the fallback [INVALID_KEY]. *)
Theorem normalize_secret_key_non_ascii (key : pystr) :
  Forall (λ c, 128 ≤ c) (nfkd key) →
  normalize_secret_key nfkd key = INVALID_KEY.
Proof.
  intros Hkey. unfold normalize_secret_key.
  assert (encode_ascii_ignore (nfkd key) = []) as ->; [|reflexivity].
  unfold encode_ascii_ignore. induction Hkey as [|c s Hc _ IH]; [done|].
  rewrite filter_cons_False by lia. exact IH.
Qed.

Hypothesis nfkd_ascii : ∀ s, ascii s → nfkd s = s.

(** X3. The keys the normalizer leaves as they are (those for which
    update_k8s_secret logs no warning) are exactly the non-empty keys of
    valid characters with no two underscores side by side and no underscore
    or dot at either end. *)
Theorem normalize_secret_key_unchanged_iff (key : pystr) :
  normalize_secret_key nfkd key = key
  ↔ key ≠ [] ∧ valid key ∧ no_run key ∧ strip key = key.
Proof.
  split.
  - intros Heq. rewrite <- Heq. apply normalize_secret_key_shape.
  - intros (Hne & Hv & Hr & Hs). by apply normalize_secret_key_fixed.
Qed.

End NormalizerShape.

(** ** The sink adapter: what it leaves alone and what it leaves behind *)

Section SinkExtent.
Context `{PythonLib} `{Destination}.
Import Client.

(** X4. Whatever its argument and whatever the destination answers,
    update_k8s_secret changes no object but the one of the configuration,
    and leaves the source client, the configuration and the event loop as
    they were. *)
Theorem update_k8s_secret_other_objects (w : World) (api : CoreV1Api)
    (secrets : pyval) :
  k8s_core_v1 w = Some api →
  let w' := (update_k8s_secret secrets w).2 in
  (∃ api', k8s_core_v1 w' = Some api'
           ∧ ∀ key, key ≠ (k8s_namespace (settings w),
                           k8s_secret_name (settings w)) →
                    objects api' !! key = objects api !! key)
  ∧ secret_client w' = secret_client w
  ∧ settings w' = settings w
  ∧ loop w' = loop w.
Proof.
  intros Hapi. cbv zeta. unfold update_k8s_secret. rewrite Hapi.
  unfold try_except, bind, try_except_ApiException, read_namespaced_secret,
    patch_namespaced_secret, create_namespaced_secret, request, ret, raise.
  destruct secrets as [| | | | | |items]; simpl;
    try (split_and!; [by exists api | done | done | done]).
  rewrite Hapi. simpl.
  repeat (first [case_match | case_decide]; simplify_eq/=).
  all: split_and!; try done.
  all: eexists; split; [reflexivity|]; intros key Hkey; simpl.
  all: by rewrite ?lookup_insert_ne.
Qed.

(** X5. A parsed document that is not a mapping (an array, a string) passes
    the fetch and stops the cycle in the sink: sync_secrets returns [False]
    and the world is as it was, no request made. *)
Theorem sync_secrets_not_a_mapping (w : World) (doc : pyval) :
  source_answer w = Some (inr (Json doc)) →
  has_len doc = true →
  Builtins.py_items doc = None →
  (fetch_gcp_secret w).1 = Return doc
  ∧ sync_secrets w = (Return false, w).
Proof.
  intros Hsrc Hlen Hitems.
  assert ((fetch_gcp_secret w).1 = Return doc) as Hf.
  { rewrite fetch_gcp_secret_answer, Hsrc. simpl. by rewrite Hlen. }
  split; [done|]. rewrite (sync_secrets_fetched w doc Hf).
  destruct (k8s_core_v1 w) as [api|] eqn:Hapi.
  - by rewrite (update_not_a_dict w api Hapi doc Hitems).
  - unfold update_k8s_secret. by rewrite Hapi.
Qed.

(** X6. sync_secrets never raises and is never cancelled: it returns
    [True] or [False], whatever the two clients do. [True] means that the
    fetch returned and update_k8s_secret returned. *)
Theorem sync_secrets_returns (w : World) :
  (∃ b, (sync_secrets w).1 = Return b)
  ∧ ((sync_secrets w).1 = Return true
     ↔ ∃ secrets, (fetch_gcp_secret w).1 = Return secrets
                  ∧ (update_k8s_secret secrets w).1 = Return true).
Proof.
  assert (∀ secrets, (update_k8s_secret secrets w).1 = Return true
                     ∨ ∃ e, (update_k8s_secret secrets w).1 = Raise e) as Hu.
  { intros secrets.
    destruct (update_k8s_secret_effect w secrets) as (Hc & _).
    unfold update_k8s_secret in *.
    destruct (k8s_core_v1 w); [|right; by eexists].
    unfold try_except, bind, ret, raise in *.
    repeat (case_match; simplify_eq/=); eauto. }
  destruct (fetch_gcp_secret w).1 as [secrets|e|] eqn:Hf.
  - rewrite (sync_secrets_fetched w secrets Hf).
    destruct (Hu secrets) as [Ht | [e He]];
      destruct (update_k8s_secret secrets w) as [[b|e'|] w'] eqn:E;
      simplify_eq/=.
    + split; [by exists true|]. split; [|done].
      intros _. exists secrets. by rewrite E.
    + split; [by exists false|]. split; [done|].
      intros (secrets' & [= <-] & Hr). by rewrite E in Hr.
  - rewrite (sync_secrets_fetch_raises w e Hf). simpl.
    split; [by exists false|]. split; [done|]. by intros (? & ? & _).
  - rewrite fetch_gcp_secret_answer in Hf. simpl in Hf.
    by repeat case_match.
Qed.

(** X7. Without one of the two clients the cycle returns [False] and
    changes nothing. *)
Theorem sync_secrets_client_missing (w : World) :
  secret_client w = None ∨ k8s_core_v1 w = None →
  sync_secrets w = (Return false, w).
Proof.
  intros Hmissing.
  destruct (fetch_gcp_secret w).1 as [secrets|e|] eqn:Hf.
  - rewrite (sync_secrets_fetched w secrets Hf).
    destruct Hmissing as [Hsrc | Hk8s].
    + rewrite fetch_gcp_secret_answer in Hf. unfold source_answer in Hf.
      by rewrite Hsrc in Hf.
    + unfold update_k8s_secret. by rewrite Hk8s.
  - by rewrite (sync_secrets_fetch_raises w e Hf).
  - rewrite fetch_gcp_secret_answer in Hf. simpl in Hf.
    by repeat case_match.
Qed.

End SinkExtent.

(** ** On the Kubernetes destination *)

Section OnKubernetes.
Context `{PythonLib}.
Import Client.

(** update_k8s_secret on a destination without faults: it returns [True]
    and the object holds the bundle laid over what it held, if anything. *)
Lemma update_k8s_secret_applied (w : World) (api : CoreV1Api)
    (items : list (pystr * pyval)) :
  k8s_core_v1 w = Some api → no_fault api →
  let r := update_k8s_secret (PyDict items) w in
  r.1 = Return true
  ∧ destination_content r.2
    = Some (build_string_data items ∪ default ∅ (destination_content w))
  ∧ (∃ api', k8s_core_v1 r.2 = Some api' ∧ no_fault api')
  ∧ settings r.2 = settings w.
Proof.
  intros Hapi Hnf. cbv zeta.
  destruct (destination_content w) as [content|] eqn:Hd;
    unfold destination_content in Hd; rewrite Hapi in Hd; simpl in Hd.
  - rewrite (update_present w api items Hapi content (Hnf READ) Hd)
      by (rewrite Hnf; discriminate).
    rewrite Hnf. unfold destination_content. simpl.
    rewrite lookup_insert_eq. unfold carried. simpl.
    rewrite (right_id_L ∅ (∪)). split_and!; [done | done | | done].
    eexists. split; [reflexivity|]. exact Hnf.
  - rewrite (update_absent w api items Hapi (Hnf READ) Hd).
    rewrite Hnf. unfold destination_content. simpl.
    rewrite lookup_insert_eq. unfold carried. simpl.
    rewrite !(right_id_L ∅ (∪)). split_and!; [done | done | | done].
    eexists. split; [reflexivity|]. exact Hnf.
Qed.

(** X8. On the Kubernetes destination, without faults,
    update_k8s_secret returns [True],
    and afterwards the object holds, under every key of the bundle, the
    value of the bundle, and under every other key what it held before (an
    object just created holds the bundle and nothing else). *)
Theorem update_k8s_secret_content (w : World) (api : CoreV1Api)
    (items : list (pystr * pyval)) :
  k8s_core_v1 w = Some api → no_fault api →
  let r := update_k8s_secret (PyDict items) w in
  r.1 = Return true
  ∧ ∃ content, destination_content r.2 = Some content
      ∧ ∀ key, content !! key
               = match build_string_data items !! key with
                 | Some value => Some value
                 | None => destination_content w ≫= (.!! key)
                 end.
Proof.
  intros Hapi Hnf. cbv zeta.
  destruct (update_k8s_secret_applied w api items Hapi Hnf)
    as (Hr & Hc & _).
  split; [done|]. eexists. split; [exact Hc|]. intros key.
  destruct (build_string_data items !! key) as [value|] eqn:E.
  - by apply lookup_union_Some_l.
  - rewrite lookup_union_r by exact E.
    by destruct (destination_content w) as [old|].
Qed.

(** X9. On the Kubernetes destination, without faults, applying the same
    bundle a second time changes nothing: the second
    update_k8s_secret returns [True] and the object holds what it held
    after the first. *)
Theorem update_k8s_secret_twice (w : World) (api : CoreV1Api)
    (items : list (pystr * pyval)) :
  k8s_core_v1 w = Some api → no_fault api →
  let once := (update_k8s_secret (PyDict items) w).2 in
  let twice := update_k8s_secret (PyDict items) once in
  twice.1 = Return true
  ∧ destination_content twice.2 = destination_content once.
Proof.
  intros Hapi Hnf. cbv zeta.
  destruct (update_k8s_secret_applied w api items Hapi Hnf)
    as (_ & Hc & (api' & Hapi' & Hnf') & _).
  destruct (update_k8s_secret_applied _ api' items Hapi' Hnf')
    as (Hr2 & Hc2 & _).
  split; [done|]. rewrite Hc2, Hc. simpl. f_equal.
  by rewrite (assoc_L (∪)), (idemp_L (∪)).
Qed.

(** X10. A whole cycle on the Kubernetes destination: the source serves a
    mapping and neither client fails. Then sync_secrets returns [True] and the destination object
    holds, under the normalized name of the last item of each name, [str]
    of its value. *)
Theorem sync_secrets_succeeds (w : World) (api : CoreV1Api)
    (items : list (pystr * pyval)) :
  source_answer w = Some (inr (Json (PyDict items))) →
  k8s_core_v1 w = Some api → no_fault api →
  (sync_secrets w).1 = Return true
  ∧ ∃ content, destination_content (sync_secrets w).2 = Some content
      ∧ ∀ pre k v post,
          items = pre ++ (k, v) :: post →
          Forall (λ kv, Normalizer.normalize_secret_key
                          unicodedata_normalize_NFKD kv.1
                        ≠ Normalizer.normalize_secret_key
                            unicodedata_normalize_NFKD k) post →
          content !! Normalizer.normalize_secret_key
                       unicodedata_normalize_NFKD k
          = Some (Builtins.py_str v).
Proof.
  intros Hsrc Hapi Hnf.
  assert ((fetch_gcp_secret w).1 = Return (PyDict items)) as Hf.
  { by rewrite fetch_gcp_secret_answer, Hsrc. }
  rewrite (sync_secrets_fetched w _ Hf).
  destruct (update_k8s_secret_applied w api items Hapi Hnf)
    as (Hr & Hc & _).
  destruct (update_k8s_secret (PyDict items) w) as [r w'].
  simpl in *. subst r. simpl. split; [done|].
  eexists. split; [exact Hc|]. intros pre k v post -> Hpost.
  apply lookup_union_Some_l. by apply build_string_data_last.
Qed.

End OnKubernetes.

(** ** The scheduler around sync_secrets *)

Section SchedulerOfSyncSecrets.
Context `{PythonLib} `{Destination}.
Import Client.

Lemma pause_sync_secrets w :
  pause sync_secrets w = sync_interval_seconds (settings w).
Proof.
  unfold pause.
  destruct (sync_secrets_reconciler (counted w)) as (Hc & _).
  destruct (sync_secrets (counted w)).1 as [b|e|] eqn:E; [done | | done].
  exfalso. revert E. unfold sync_secrets, try_except, bind, ret.
  by repeat case_match.
Qed.

(** X11. Around sync_secrets, which never raises, the 60 second back-off
    of periodic_sync is never taken: as long as no cancellation arrives,
    every sleep of the loop is the configured interval. *)
Theorem periodic_sync_sleeps_interval (n : nat) (w : World) :
  undisturbed w n →
  sleeps (loop (periodic_sync n w).2)
  = replicate n (sync_interval_seconds (settings w)) ++ sleeps (loop w).
Proof.
  unfold periodic_sync. revert w. induction n as [|n IH]; intros w Hu.
  { reflexivity. }
  destruct (undisturbed_next sync_secrets sync_secrets_reconciler w n Hu)
    as [Hnext Hu1].
  destruct (periodic_sync_turn_effect sync_secrets sync_secrets_reconciler w)
    as (Hr & Hsl & _ & _ & Hse).
  simpl. unfold bind.
  destruct (periodic_sync_turn sync_secrets w) as [r1 w1].
  simpl in *. rewrite Hnext in Hr. subst r1.
  rewrite (IH w1 Hu1), Hsl, Hse, pause_sync_secrets.
  by rewrite cons_middle, app_assoc, <- replicate_S_end.
Qed.

End SchedulerOfSyncSecrets.

(** ** The trigger and status surface *)

Section TextFacts.
Import Text.

Lemma startswith_spec prefix s :
  startswith prefix s = true ↔ ∃ post, s = prefix ++ post.
Proof.
  revert s. induction prefix as [|p prefix IH]; intros s; simpl.
  - split; [by exists s | done].
  - destruct s as [|c s]; [split; [done | by intros [? ?]]|].
    rewrite andb_true_iff, N.eqb_eq, IH. split.
    + intros [-> [post ->]]. by exists post.
    + intros [post [= -> ->]]. split; [done | by exists post].
Qed.

Lemma remove_no_occurrence old s :
  ¬ occurs old s → remove old s = s.
Proof.
  unfold remove. induction s as [|c s IH]; intros Hno; [done|].
  simpl. destruct (startswith old (c :: s)) eqn:E.
  - apply startswith_spec in E as [post E].
    destruct Hno. exists [], post. by rewrite E.
  - f_equal. apply IH. intros (pre & post & ->).
    apply Hno. by exists (c :: pre), post.
Qed.

Lemma occurs_contains old s : occurs old s → contains old s = true.
Proof.
  intros (pre & post & ->). induction pre as [|c pre IH].
  - assert (startswith old (old ++ post) = true) as Hs
      by (apply startswith_spec; by exists post).
    simpl. destruct (old ++ post); simpl; by rewrite Hs.
  - change (contains old ((c :: pre) ++ old ++ post))
      with (startswith old (c :: pre ++ old ++ post)
            || contains old (pre ++ old ++ post)).
    rewrite IH. apply orb_true_r.
Qed.

Lemma text_lstrip_suffix s : ∃ t, s = t ++ lstrip s.
Proof.
  induction s as [|c s [t IH]]; [by exists []|].
  simpl. destruct (isspace c); [|by exists []].
  exists (c :: t). simpl. by f_equal.
Qed.

Lemma text_lstrip_head s :
  match lstrip s with [] => True | c :: _ => isspace c = false end.
Proof.
  induction s as [|c s IH]; [exact I|].
  simpl. destruct (isspace c) eqn:E; [exact IH | exact E].
Qed.

Lemma text_lstrip_fixed s :
  match s with [] => True | c :: _ => isspace c = false end → lstrip s = s.
Proof. destruct s as [|c s]; [done|]. simpl. by intros ->. Qed.

(** [strip] twice is [strip] once. *)
Lemma text_strip_strip s : strip (strip s) = strip s.
Proof.
  unfold strip.
  set (u := lstrip s). set (r := lstrip (reverse u)).
  assert (lstrip (reverse r) = reverse r) as ->.
  { apply text_lstrip_fixed.
    pose proof (text_lstrip_head s) as Hh. fold u in Hh.
    destruct (text_lstrip_suffix (reverse u)) as [t Ht]. fold r in Ht.
    apply (f_equal reverse) in Ht.
    rewrite reverse_involutive, reverse_app in Ht.
    destruct (reverse r) as [|c r']; [exact I|].
    by rewrite Ht in Hh. }
  rewrite reverse_involutive. f_equal.
  apply text_lstrip_fixed, text_lstrip_head.
Qed.

End TextFacts.

Section SurfaceFacts.
Context `{PythonLib} `{Destination}.
Variable surface : SurfaceSettings.
Variable now : pystr.
Variable str_exn : exn → pystr.

(** The token read out of a header is stripped text. *)
Lemma presented_token_stripped a :
  Text.strip (presented_token a) = presented_token a.
Proof. unfold presented_token. case_match; apply text_strip_strip. Qed.

(** Once the request is let in, manual_sync answers by sync_secrets. *)
Lemma manual_sync_served authorization w :
  authorize surface authorization = None →
  manual_sync surface now str_exn authorization w
  = (sync_answer now w, (sync_secrets w).2).
Proof.
  intros Hin. unfold manual_sync, sync_answer. rewrite Hin.
  destruct (sync_secrets_reconciler w) as (Hc & _).
  destruct (sync_secrets w) as [[[|]|e|] w'] eqn:E; simpl in *;
    [done | done | | done].
  exfalso. revert E. unfold sync_secrets, try_except, bind, ret.
  by repeat case_match.
Qed.

(** X12. health_check answers with status code 200 in every case, also
    when it reports "unhealthy"; it reports "healthy" exactly when both
    clients are initialized. *)
Theorem health_check_always_200 (w : World) :
  status_code (health_check now w) = 200%Z
  ∧ (health (content (health_check now w)) = py "healthy"
     ↔ is_Some (secret_client w) ∧ is_Some (k8s_core_v1 w))
  ∧ (health (content (health_check now w)) = py "unhealthy"
     ↔ secret_client w = None ∨ k8s_core_v1 w = None).
Proof.
  unfold health_check. simpl.
  destruct (secret_client w), (k8s_core_v1 w); simpl;
    split_and!; try done; split; try done;
    try (intros [[? ?] [? ?]]; done); try (intros [?|?]; done);
    try (intros; by eauto); try (intros _; by eauto).
Qed.

(** X13. With a token configured, a request without an Authorization
    header (or with an empty one) is answered 401 and a request whose
    header gives another token is answered 403; in both cases no cycle is
    run: the world is as it was. *)
Theorem manual_sync_rejects (w : World) (token : pystr) :
  api_token surface = Some token →
  token ≠ [] →
  manual_sync surface now str_exn None w
  = (HTTPException 401 (py "Authorization header is required"), w)
  ∧ manual_sync surface now str_exn (Some []) w
    = (HTTPException 401 (py "Authorization header is required"), w)
  ∧ ∀ a, a ≠ [] → presented_token a ≠ token →
         manual_sync surface now str_exn (Some a) w
         = (HTTPException 403 (py "Invalid token"), w).
Proof.
  intros Htoken Hne. unfold manual_sync, authorize. rewrite Htoken.
  destruct token as [|c token]; [done|]. simpl.
  split_and!; [done | done |].
  intros a Ha Hwrong. destruct a as [|d a]; [done|]. simpl.
  by rewrite decide_True.
Qed.

(** X14. With a token configured that is stripped text without "Bearer "
    in it, the header may give the token alone or after "Bearer ": both
    requests are let in and answered by the outcome of sync_secrets, the
    report when it returned [True] and an error 500 when not. *)
Theorem manual_sync_accepts (w : World) (token : pystr) :
  api_token surface = Some token →
  token ≠ [] →
  Text.strip token = token →
  ¬ occurs (py "Bearer ") token →
  manual_sync surface now str_exn (Some token) w
  = (sync_answer now w, (sync_secrets w).2)
  ∧ manual_sync surface now str_exn (Some (py "Bearer " ++ token)) w
    = (sync_answer now w, (sync_secrets w).2).
Proof.
  intros Htoken Hne Hstrip Hno.
  assert (Text.startswith (py "Bearer ") token = false) as Hplain.
  { destruct (Text.startswith _ token) eqn:E; [|done].
    apply startswith_spec in E as [post E].
    destruct Hno. exists [], post. by rewrite E. }
  split; apply manual_sync_served; unfold authorize; rewrite Htoken.
  - destruct token as [|c token]; [done|].
    cbn [Text.truthy negb]. unfold presented_token, default, id. cbn [from_option].
    rewrite Hplain, Hstrip. by rewrite decide_False by (intros Hn; by apply Hn).
  - destruct token as [|c token]; [done|].
    cbn [Text.truthy negb]. unfold presented_token, default, id. cbn [from_option].
    change (Text.startswith (py "Bearer ") (py "Bearer " ++ c :: token))
      with true.
    change (Text.remove (py "Bearer ") (py "Bearer " ++ c :: token))
      with (Text.remove (py "Bearer ") (c :: token)).
    rewrite (remove_no_occurrence _ _ Hno), Hstrip.
    by rewrite decide_False by (intros Hn; by apply Hn).
Qed.

(** X15. Without a token configured, and also with the empty string for
    a token, every request is let in, whatever its header. *)
Theorem manual_sync_open (w : World) (authorization : option pystr) :
  api_token surface = None ∨ api_token surface = Some [] →
  manual_sync surface now str_exn authorization w
  = (sync_answer now w, (sync_secrets w).2).
Proof.
  intros Hopen. apply manual_sync_served. unfold authorize.
  by destruct Hopen as [-> | ->].
Qed.

(** X16. A configured token with white space at either end (a trailing
    newline, say) can never be presented, since the token read out of a
    header is stripped: every request is answered 401 or 403 and no cycle
    is run. *)
Theorem manual_sync_locked (w : World) (token : pystr)
    (authorization : option pystr) :
  api_token surface = Some token →
  Text.strip token ≠ token →
  ∃ code detail,
    manual_sync surface now str_exn authorization w
    = (HTTPException code detail, w)
    ∧ (code = 401%Z ∨ code = 403%Z).
Proof.
  intros Htoken Hws. unfold manual_sync, authorize. rewrite Htoken.
  destruct token as [|c token]; [done|]. cbn [Text.truthy].
  destruct (Text.truthy authorization) eqn:Ha; cbn [negb].
  - rewrite decide_True; [by eauto 6|].
    intros Heq. apply Hws.
    change (default [] (Some (c :: token))) with (c :: token) in Heq.
    rewrite <- Heq. apply presented_token_stripped.
  - by eauto 6.
Qed.

End SurfaceFacts.

(** ** Start-up *)

Section StartupFacts.
Variable surface : SurfaceSettings.
Variable host : Host.

(** X17. When the start-up of lifespan gets through, both clients are
    initialized, the configuration is untouched, the periodic task has
    been created, and health_check reports "healthy". *)
Theorem lifespan_startup_ready (p : Process) (now : pystr) :
  (lifespan_startup surface host p).1 = inr () →
  let p' := (lifespan_startup surface host p).2 in
  is_Some (secret_client (globals p'))
  ∧ is_Some (k8s_core_v1 (globals p'))
  ∧ settings (globals p') = settings (globals p)
  ∧ sync_task p' = true
  ∧ health (content (health_check now (globals p'))) = py "healthy".
Proof.
  cbv zeta. unfold lifespan_startup, init_gcp_client, init_k8s_client,
    health_check.
  repeat (case_match; simplify_eq/=); try done;
    intros _; split_and!; by eauto.
Qed.

(** X18. When the start-up fails, the periodic task is not created. If
    it is the source client that fails, the Kubernetes client is left
    alone; if it is the Kubernetes client, the source client has been
    initialized before. *)
Theorem lifespan_startup_refuses (p : Process) (message : string) :
  (lifespan_startup surface host p).1 = inl message →
  let p' := (lifespan_startup surface host p).2 in
  sync_task p' = sync_task p
  ∧ ((message = "GCP client initialization failed"%string
      ∧ globals p' = globals p)
     ∨ (message = "Kubernetes client initialization failed"%string
        ∧ is_Some (secret_client (globals p'))
        ∧ k8s_core_v1 (globals p') = k8s_core_v1 (globals p))).
Proof.
  cbv zeta. unfold lifespan_startup, init_gcp_client, init_k8s_client.
  repeat (case_match; simplify_eq/=); try done;
    intros [= <-]; (split; [done|]); by eauto.
Qed.

End StartupFacts.

(** ** The further properties at sample inputs *)

(** A key in a script without ASCII letters. *)
Lemma normalize_secret_key_non_ascii_witness :
  Normalizer.normalize_secret_key Normalizer.nfkd_fragment [0x4E2D; 0x6587]
  = py "INVALID_KEY".
Proof.
  apply (normalize_secret_key_non_ascii Normalizer.nfkd_fragment).
  repeat constructor; vm_compute; discriminate.
Defined.

(** A key that is already a valid identifier. *)
Lemma normalize_secret_key_unchanged_iff_witness :
  Normalizer.normalize_secret_key Normalizer.nfkd_fragment (py "db-pass.1")
  = py "db-pass.1".
Proof.
  apply (normalize_secret_key_unchanged_iff Normalizer.nfkd_fragment
           nfkd_fragment_ascii).
  split_and!.
  - discriminate.
  - apply matches_grammar_spec. reflexivity.
  - vm_compute. repeat split; congruence.
  - reflexivity.
Defined.

(** The bundle B, C applied to the object holding A and B: nothing else in
    the world is touched. *)
Lemma update_k8s_secret_other_objects_witness :
  secret_client
    (@update_k8s_secret python_fragment kubernetes Sample.bundle_BC
       Sample.failing_world).2 = None
  ∧ settings
      (@update_k8s_secret python_fragment kubernetes Sample.bundle_BC
         Sample.failing_world).2 = Sample.config.
Proof.
  destruct (@update_k8s_secret_other_objects python_fragment kubernetes
              Sample.failing_world Sample.holding_AB Sample.bundle_BC
              eq_refl) as (_ & Hsrc & Hset & _).
  split; [exact Hsrc | exact Hset].
Defined.

(** The array payload: fetched, then turned down. *)
Lemma sync_secrets_not_a_mapping_witness :
  @sync_secrets python_fragment kubernetes Sample.array_world
  = (Return false, Sample.array_world).
Proof.
  apply (@sync_secrets_not_a_mapping python_fragment kubernetes
           Sample.array_world (PyList [PyInt 1])); reflexivity.
Defined.

(** No source client. *)
Lemma sync_secrets_client_missing_witness :
  @sync_secrets python_fragment kubernetes Sample.failing_world
  = (Return false, Sample.failing_world).
Proof.
  apply (@sync_secrets_client_missing python_fragment kubernetes).
  left. reflexivity.
Defined.

(** The bundle B, C over the object holding A and B. *)
Lemma update_k8s_secret_content_witness :
  (@update_k8s_secret python_fragment kubernetes Sample.bundle_BC
     Sample.failing_world).1 = Return true.
Proof.
  apply (@update_k8s_secret_content python_fragment Sample.failing_world
           Sample.holding_AB
           [(py "B", PyStr (py "3")); (py "C", PyStr (py "4"))] eq_refl).
  intros verb. reflexivity.
Defined.

(** The same bundle applied once more. *)
Lemma update_k8s_secret_twice_witness :
  (@update_k8s_secret python_fragment kubernetes Sample.bundle_BC
     Sample.after_update).1 = Return true
  ∧ destination_content
      (@update_k8s_secret python_fragment kubernetes Sample.bundle_BC
         Sample.after_update).2
    = destination_content Sample.after_update.
Proof.
  apply (@update_k8s_secret_twice python_fragment Sample.failing_world
           Sample.holding_AB
           [(py "B", PyStr (py "3")); (py "C", PyStr (py "4"))] eq_refl).
  intros verb. reflexivity.
Defined.

(** A whole cycle with the source serving B and C. *)
Lemma sync_secrets_succeeds_witness :
  (@sync_secrets python_fragment kubernetes Demo.serving_world).1
  = Return true.
Proof.
  apply (@sync_secrets_succeeds python_fragment Demo.serving_world
           Sample.holding_AB
           [(py "B", PyStr (py "3")); (py "C", PyStr (py "4"))]
           eq_refl eq_refl).
  intros verb. reflexivity.
Defined.

(** Two turns of the loop with the interval of 300 seconds. *)
Lemma periodic_sync_sleeps_interval_witness :
  sleeps (loop (@periodic_sync python_fragment kubernetes 2
                  Sample.failing_world).2)
  = [300%Z; 300%Z].
Proof.
  apply (@periodic_sync_sleeps_interval python_fragment kubernetes 2
           Sample.failing_world).
  intros i _. reflexivity.
Defined.

(** The token "s3cret" and a request without a header. *)
Lemma manual_sync_rejects_witness :
  @manual_sync python_fragment kubernetes (Demo.with_token (py "s3cret"))
    Demo.timestamp Demo.str_exn None Demo.serving_world
  = (HTTPException 401 (py "Authorization header is required"),
     Demo.serving_world).
Proof.
  apply (@manual_sync_rejects python_fragment kubernetes
           (Demo.with_token (py "s3cret")) Demo.timestamp Demo.str_exn
           Demo.serving_world (py "s3cret") eq_refl).
  discriminate.
Defined.

(** The token "s3cret" after "Bearer ". *)
Lemma manual_sync_accepts_witness :
  (@manual_sync python_fragment kubernetes (Demo.with_token (py "s3cret"))
     Demo.timestamp Demo.str_exn (Some (py "Bearer s3cret"))
     Demo.serving_world).1
  = Responds {| report_status := py "success";
                report_message := py "Secrets synced successfully";
                report_timestamp := Demo.timestamp |}.
Proof.
  destruct (@manual_sync_accepts python_fragment kubernetes
              (Demo.with_token (py "s3cret")) Demo.timestamp Demo.str_exn
              Demo.serving_world (py "s3cret") eq_refl) as [_ Hbearer].
  - discriminate.
  - reflexivity.
  - intros Hocc. apply occurs_contains in Hocc. discriminate Hocc.
  - change (py "Bearer s3cret") with (py "Bearer " ++ py "s3cret").
    rewrite Hbearer. reflexivity.
Defined.

(** No token configured, and a header all the same. *)
Lemma manual_sync_open_witness :
  (@manual_sync python_fragment kubernetes Demo.without_token
     Demo.timestamp Demo.str_exn (Some (py "anything"))
     Demo.serving_world).2
  = (@sync_secrets python_fragment kubernetes Demo.serving_world).2.
Proof.
  rewrite (@manual_sync_open python_fragment kubernetes Demo.without_token
             Demo.timestamp Demo.str_exn Demo.serving_world
             (Some (py "anything")));
    [reflexivity | left; reflexivity].
Defined.

(** The token "s3cret" with a newline after it, presented as it is. *)
Lemma manual_sync_locked_witness :
  ∃ code detail,
    @manual_sync python_fragment kubernetes
      (Demo.with_token (py "s3cret" ++ [10])) Demo.timestamp Demo.str_exn
      (Some (py "s3cret" ++ [10])) Demo.serving_world
    = (HTTPException code detail, Demo.serving_world)
    ∧ (code = 401%Z ∨ code = 403%Z).
Proof.
  apply (@manual_sync_locked python_fragment kubernetes
           (Demo.with_token (py "s3cret" ++ [10])) Demo.timestamp
           Demo.str_exn Demo.serving_world (py "s3cret" ++ [10])
           (Some (py "s3cret" ++ [10])) eq_refl).
  discriminate.
Defined.

(** Start-up on a host where both libraries work. *)
Lemma lifespan_startup_ready_witness :
  sync_task (lifespan_startup Demo.without_token Demo.working_host
               Demo.fresh).2 = true
  ∧ is_Some (k8s_core_v1
               (globals (lifespan_startup Demo.without_token
                           Demo.working_host Demo.fresh).2)).
Proof.
  destruct (lifespan_startup_ready Demo.without_token Demo.working_host
              Demo.fresh Demo.timestamp eq_refl)
    as (_ & Hk8s & _ & Htask & _).
  split; [exact Htask | exact Hk8s].
Defined.

(** Start-up on a host without credentials. *)
Lemma lifespan_startup_refuses_witness :
  sync_task (lifespan_startup Demo.without_token
               Demo.host_without_credentials Demo.fresh).2 = false.
Proof.
  destruct (lifespan_startup_refuses Demo.without_token
              Demo.host_without_credentials Demo.fresh
              "GCP client initialization failed" eq_refl) as [Htask _].
  exact Htask.
Defined.
